(** * The chat widget of [frontend/app.js], embedded in Rocq

    The script is browser glue: it derives a backend URL from the port the
    page is served on, probes [/health], posts prompts to [/query] and lists
    the files of [/files].  The embedding keeps the shape of the script:

    - JavaScript values are the inductive type [value]; the numbers the
      script computes with are [NaN] or an integer (ports, far below 2^53,
      where doubles are exact), and any other number a reply may hold is
      kept as the text it prints as;
    - strings are [string]; a character stands for one code unit below 256,
      which is where the white space of [trim] and [parseInt] that the
      embedding knows lives;
    - the page (DOM nodes the script touches, [window.BACKEND_URL], the
      chronological trace of effects) is the record [World];
    - a method is a function in the monad [M]: it threads the world and
      either returns or throws, as an [async] method resolves or rejects.
      Each [await] of a call is run to completion before its next
      statement: a call is followed on its own, and the only place where
      two calls are pending together, the constructor, is modelled as one
      of its runs;
    - [fetch] and [response.json()] are answered by the host [Env]. *)

From Stdlib Require Import String Ascii ZArith List Bool Lia.
From Stdlib Require Import Decimal DecimalString DecimalPos DecimalZ.
Import ListNotations.

Set Warnings "-register-all".

Open Scope string_scope.
Open Scope Z_scope.

(** ** Strings *)

Module JsString.

(** White space and line terminators among the code units below 256:
    TAB, LF, VT, FF, CR, SP and NBSP. *)
Definition is_white_space (c : ascii) : bool :=
  let n := N_of_ascii c in
  ((9 <=? n)%N && (n <=? 13)%N) || (n =? 32)%N || (n =? 160)%N.

Fixpoint trim_start (s : string) : string :=
  match s with
  | String c r => if is_white_space c then trim_start r else s
  | EmptyString => EmptyString
  end.

Fixpoint trim_end (s : string) : string :=
  match s with
  | String c r =>
      match trim_end r with
      | EmptyString => if is_white_space c then EmptyString else String c EmptyString
      | r' => String c r'
      end
  | EmptyString => EmptyString
  end.

(** [String.prototype.trim] *)
Definition trim (s : string) : string := trim_end (trim_start s).

(** Truthiness of a string: [if (s)] *)
Definition truthy (s : string) : bool :=
  match s with EmptyString => false | String _ _ => true end.

(** The double quote, for the markup the script writes. *)
Definition dq : string := String (ascii_of_nat 34) EmptyString.

End JsString.

(** ** Numbers *)

Inductive number : Type :=
| NaN
| Num (z : Z).

Module JsNumber.

Definition sub (a b : number) : number :=
  match a, b with
  | Num x, Num y => Num (x - y)
  | _, _ => NaN
  end.

Definition add (a b : number) : number :=
  match a, b with
  | Num x, Num y => Num (x + y)
  | _, _ => NaN
  end.

(** [Number::toString] on the safe integers (at most 2^53 - 1 in absolute
    value) and [NaN]: their decimal digits, with a sign.  Beyond that range
    the engine rounds and, from 10^21 on, prints an exponent; such numbers
    are [VFloat] values and do not come here. *)
Definition to_string (n : number) : string :=
  match n with
  | NaN => "NaN"
  | Num z => NilZero.string_of_int (Z.to_int z)
  end.

Definition digit_value (c : ascii) : option Z :=
  let n := Z.of_N (N_of_ascii c) in
  if (48 <=? n) && (n <=? 57) then Some (n - 48)
  else if (97 <=? n) && (n <=? 122) then Some (n - 87)
  else if (65 <=? n) && (n <=? 90) then Some (n - 55)
  else None.

Definition radix_digit (R : Z) (c : ascii) : option Z :=
  match digit_value c with
  | Some d => if d <? R then Some d else None
  | None => None
  end.

(** The value of the longest prefix of radix-[R] digits, to the right of
    the digits already read into [acc]. *)
Fixpoint parse_digits (R acc : Z) (s : string) : Z :=
  match s with
  | String c r =>
      match radix_digit R c with
      | Some d => parse_digits R (acc * R + d) r
      | None => acc
      end
  | EmptyString => acc
  end.

Definition starts_with_digit (R : Z) (s : string) : bool :=
  match s with
  | String c _ => match radix_digit R c with Some _ => true | None => false end
  | EmptyString => false
  end.

(** [parseInt(s)] with no radix argument: leading white space is skipped,
    a sign is read, a [0x] prefix switches to radix 16, and the longest
    prefix of digits is the value; no digit at all is [NaN]. *)
Definition parseInt (s : string) : number :=
  let s1 := JsString.trim_start s in
  let '(sign, s2) :=
    match s1 with
    | String "-" r => (-1, r)
    | String "+" r => (1, r)
    | _ => (1, s1)
    end in
  let '(R, s3) :=
    match s2 with
    | String "0" (String "x" r) => (16, r)
    | String "0" (String "X" r) => (16, r)
    | _ => (10, s2)
    end in
  if starts_with_digit R s3 then Num (sign * parse_digits R 0 s3) else NaN.

End JsNumber.

(** ** Values *)

(** What [JSON.parse] can produce, and [undefined], which reading a missing
    property produces.  An object is its list of own properties.  A number
    is [VNum] when it is a safe integer (at most 2^53 - 1 in absolute
    value) and [VFloat] otherwise -- a fraction, or a number too large to
    be exact: the script only prints such a number or tests it for truth,
    so it is kept as the text the engine prints for it, and it is never
    zero. *)
Inductive value : Type :=
| VUndefined
| VNull
| VBool (b : bool)
| VNum (n : number)
| VFloat (shown : string)
| VStr (s : string)
| VArr (elems : list value)
| VObj (props : list (string * value)).

(** The errors the engine itself raises in this script. *)
Inductive error_kind : Type :=
| ReadOfNullish (prop : string)      (* x.p with x null or undefined *)
| NotAFunction (callee : string)     (* x.p(...) with x.p not callable *)
| NotPrimitive                       (* an object with no usable toString *)
| InvalidUrl (url : string).         (* fetch of a URL that does not parse *)

(** A thrown [Error]; the script reads only its message. *)
Record exn : Type := Exn { error_message : string }.

Inductive result (A : Type) : Type :=
| Ok (a : A)
| Throw (e : exn).
Arguments Ok {A} a.
Arguments Throw {A} e.

(** ** The host *)

Record request : Type := Request {
  req_url : string;
  req_method : string;
  req_headers : list (string * string);
  (* the value handed to JSON.stringify, when the request has a body *)
  req_body : option value
}.

Record response : Type := Response {
  resp_status : Z;
  (* what response.json() settles to *)
  resp_json : result value
}.

(** [response.ok] *)
Definition resp_ok (r : response) : bool :=
  (200 <=? resp_status r) && (resp_status r <=? 299).

(** The host answers a request knowing the requests issued before it, and
    words the messages of the errors the engine raises. *)
Record Env : Type := {
  net : list request -> request -> result response;
  engine_message : error_kind -> string
}.

Definition type_error (msg : error_kind -> string) (k : error_kind) : exn :=
  Exn (msg k).

Module JsValue.

(** [ToBoolean] *)
Definition to_boolean (v : value) : bool :=
  match v with
  | VUndefined | VNull => false
  | VBool b => b
  | VNum NaN => false
  | VNum (Num z) => negb (z =? 0)
  | VFloat _ => true
  | VStr s => JsString.truthy s
  | VArr _ | VObj _ => true
  end.

(** [a || b] *)
Definition or_else (a b : value) : value :=
  if to_boolean a then a else b.

Fixpoint own_property (k : string) (props : list (string * value)) : option value :=
  match props with
  | [] => None
  | (k', v) :: rest => if String.eqb k k' then Some v else own_property k rest
  end.

(** [v.k], for the property names the script reads ([status], [response],
    [error], [files], [filename], [length]): none of them is found on a
    prototype, except [length] of strings and arrays. *)
Definition get_prop (msg : error_kind -> string) (v : value) (k : string) : result value :=
  match v with
  | VUndefined | VNull => Throw (type_error msg (ReadOfNullish k))
  | VBool _ | VNum _ | VFloat _ => Ok VUndefined
  | VStr s =>
      if String.eqb k "length" then Ok (VNum (Num (Z.of_nat (String.length s))))
      else Ok VUndefined
  | VArr l =>
      if String.eqb k "length" then Ok (VNum (Num (Z.of_nat (List.length l))))
      else Ok VUndefined
  | VObj props =>
      match own_property k props with
      | Some x => Ok x
      | None => Ok VUndefined
      end
  end.

(** [a === b] where one side is a primitive literal of the script. *)
Definition strict_equals (a b : value) : bool :=
  match a, b with
  | VUndefined, VUndefined => true
  | VNull, VNull => true
  | VBool x, VBool y => Bool.eqb x y
  | VNum (Num x), VNum (Num y) => x =? y
  | VStr x, VStr y => String.eqb x y
  | _, _ => false
  end.

(** [ToString], as a template literal applies it.  An array is joined
    with commas, [null] and [undefined] elements printing as nothing.  A
    parsed object prints as [[object Object]] unless it has an own
    [toString] property, which cannot be callable: then [valueOf] gives
    no primitive either and the conversion throws. *)
Fixpoint to_string (msg : error_kind -> string) (v : value) : result string :=
  match v with
  | VUndefined => Ok "undefined"
  | VNull => Ok "null"
  | VBool true => Ok "true"
  | VBool false => Ok "false"
  | VNum n => Ok (JsNumber.to_string n)
  | VFloat shown => Ok shown
  | VStr s => Ok s
  | VArr l =>
      (fix join (l : list value) : result string :=
         match l with
         | [] => Ok ""
         | x :: rest =>
             let sx :=
               match x with
               | VUndefined | VNull => Ok ""
               | _ => to_string msg x
               end in
             match sx, rest with
             | Throw e, _ => Throw e
             | Ok s, [] => Ok s
             | Ok s, _ =>
                 match join rest with
                 | Ok t => Ok (s ++ "," ++ t)
                 | Throw e => Throw e
                 end
             end
         end) l
  | VObj props =>
      match own_property "toString" props with
      | Some _ => Throw (type_error msg NotPrimitive)
      | None => Ok "[object Object]"
      end
  end.

(** The values an engine can hold: every integer kept in [VNum] is a safe
    integer.  On these [to_string] prints what the engine prints. *)
Fixpoint wellformed (v : value) : bool :=
  match v with
  | VNum (Num z) => Z.abs z <=? 9007199254740991
  | VArr l => forallb wellformed l
  | VObj props => forallb (fun '(_, x) => wellformed x) props
  | _ => true
  end.

(** The conversion of a nullable DOM string attribute ([textContent]):
    [null] and [undefined] are the empty string. *)
Definition dom_string (msg : error_kind -> string) (v : value) : result string :=
  match v with
  | VUndefined | VNull => Ok ""
  | _ => to_string msg v
  end.

End JsValue.

(** ** The page *)

(** A [div.message] with its [div.content] child. *)
Record message : Type := Message {
  className : string;
  textContent : string
}.

Inductive callback : Type :=
| CallLoadFiles.                       (* () => this.loadFiles() *)

(** The effects of the script, in the order they happen. *)
Inductive event : Type :=
| EvConsole (method label : string)
| EvFetch (r : request)
| EvAppend (m : message)
| EvTimeout (cb : callback) (delay : Z).

Record World : Type := {
  location_port : string;               (* window.location.port *)
  window_BACKEND_URL : option string;   (* window.BACKEND_URL, None when undefined *)
  input_value : string;                 (* #messageInput *)
  messages : list message;              (* children of #messages *)
  sendButton_disabled : bool;           (* #sendButton *)
  sendText_display : string;            (* .send-text *)
  loading_display : string;             (* .loading *)
  status_textContent : string;          (* #status *)
  status_className : string;
  filesList_innerHTML : string;         (* #filesList *)
  trace : list event
}.

Definition requests_of (t : list event) : list request :=
  flat_map (fun e => match e with EvFetch r => [r] | _ => [] end) t.

Definition appends_of (t : list event) : list message :=
  flat_map (fun e => match e with EvAppend m => [m] | _ => [] end) t.

(** ** The monad of methods *)

Definition M (A : Type) : Type := World -> result A * World.

Definition ret {A} (a : A) : M A := fun w => (Ok a, w).

Definition throw {A} (e : exn) : M A := fun w => (Throw e, w).

Definition bind {A B} (m : M A) (f : A -> M B) : M B :=
  fun w =>
    match m w with
    | (Ok a, w') => f a w'
    | (Throw e, w') => (Throw e, w')
    end.

Definition lift {A} (r : result A) : M A := fun w => (r, w).

(** [try { body } catch (error) { handler }] *)
Definition try_catch {A} (body : M A) (handler : exn -> M A) : M A :=
  fun w =>
    match body w with
    | (Ok a, w') => (Ok a, w')
    | (Throw e, w') => handler e w'
    end.

(** [try { body } finally { final }] *)
Definition try_finally {A} (body : M A) (final : M unit) : M A :=
  fun w =>
    match body w with
    | (r, w') =>
        match final w' with
        | (Ok _, w'') => (r, w'')
        | (Throw e, w'') => (Throw e, w'')
        end
    end.

Definition modify (f : World -> World) : M unit := fun w => (Ok tt, f w).

Notation "x <- m ;; k" := (bind m (fun x => k))
  (at level 61, m at next level, right associativity).
Notation "m ;;; k" := (bind m (fun _ => k))
  (at level 61, right associativity).

Definition emit (e : event) (w : World) : World :=
  {| location_port := location_port w;
     window_BACKEND_URL := window_BACKEND_URL w;
     input_value := input_value w;
     messages := messages w;
     sendButton_disabled := sendButton_disabled w;
     sendText_display := sendText_display w;
     loading_display := loading_display w;
     status_textContent := status_textContent w;
     status_className := status_className w;
     filesList_innerHTML := filesList_innerHTML w;
     trace := (trace w ++ [e])%list |}.

Definition set_window_BACKEND_URL (u : string) (w : World) : World :=
  {| location_port := location_port w;
     window_BACKEND_URL := Some u;
     input_value := input_value w;
     messages := messages w;
     sendButton_disabled := sendButton_disabled w;
     sendText_display := sendText_display w;
     loading_display := loading_display w;
     status_textContent := status_textContent w;
     status_className := status_className w;
     filesList_innerHTML := filesList_innerHTML w;
     trace := trace w |}.

Definition set_input_value (s : string) (w : World) : World :=
  {| location_port := location_port w;
     window_BACKEND_URL := window_BACKEND_URL w;
     input_value := s;
     messages := messages w;
     sendButton_disabled := sendButton_disabled w;
     sendText_display := sendText_display w;
     loading_display := loading_display w;
     status_textContent := status_textContent w;
     status_className := status_className w;
     filesList_innerHTML := filesList_innerHTML w;
     trace := trace w |}.

Definition append_message (m : message) (w : World) : World :=
  {| location_port := location_port w;
     window_BACKEND_URL := window_BACKEND_URL w;
     input_value := input_value w;
     messages := (messages w ++ [m])%list;
     sendButton_disabled := sendButton_disabled w;
     sendText_display := sendText_display w;
     loading_display := loading_display w;
     status_textContent := status_textContent w;
     status_className := status_className w;
     filesList_innerHTML := filesList_innerHTML w;
     trace := (trace w ++ [EvAppend m])%list |}.

Definition set_loading (disabled : bool) (sendText loading : string) (w : World) : World :=
  {| location_port := location_port w;
     window_BACKEND_URL := window_BACKEND_URL w;
     input_value := input_value w;
     messages := messages w;
     sendButton_disabled := disabled;
     sendText_display := sendText;
     loading_display := loading;
     status_textContent := status_textContent w;
     status_className := status_className w;
     filesList_innerHTML := filesList_innerHTML w;
     trace := trace w |}.

Definition set_status (text cls : string) (w : World) : World :=
  {| location_port := location_port w;
     window_BACKEND_URL := window_BACKEND_URL w;
     input_value := input_value w;
     messages := messages w;
     sendButton_disabled := sendButton_disabled w;
     sendText_display := sendText_display w;
     loading_display := loading_display w;
     status_textContent := text;
     status_className := cls;
     filesList_innerHTML := filesList_innerHTML w;
     trace := trace w |}.

Definition set_filesList_innerHTML (html : string) (w : World) : World :=
  {| location_port := location_port w;
     window_BACKEND_URL := window_BACKEND_URL w;
     input_value := input_value w;
     messages := messages w;
     sendButton_disabled := sendButton_disabled w;
     sendText_display := sendText_display w;
     loading_display := loading_display w;
     status_textContent := status_textContent w;
     status_className := status_className w;
     filesList_innerHTML := html;
     trace := trace w |}.

Definition console (method label : string) : M unit :=
  modify (emit (EvConsole method label)).

(** ** [fetch] *)

Fixpoint strip_prefix (p s : string) : option string :=
  match p, s with
  | EmptyString, _ => Some s
  | String a p', String b s' => if Ascii.eqb a b then strip_prefix p' s' else None
  | String _ _, EmptyString => None
  end.

(** The characters of a URL's port: up to the path, query or fragment. *)
Fixpoint port_chars (s : string) : string :=
  match s with
  | EmptyString => EmptyString
  | String c r =>
      if (Ascii.eqb c "/" || Ascii.eqb c "?" || Ascii.eqb c "#"
          || (N_of_ascii c =? 92)%N)%bool
      then EmptyString
      else String c (port_chars r)
  end.

Fixpoint all_decimal (s : string) : bool :=
  match s with
  | EmptyString => true
  | String c r =>
      match JsNumber.radix_digit 10 c with
      | Some _ => all_decimal r
      | None => false
      end
  end.

(** Modelled from the platform: the URL parser accepts a port made of
    decimal digits whose value is at most 65535 (or no port at all).  Only
    the URLs the script builds itself, [http://localhost:PORT...], are
    judged; any other string is left to the host. *)
Definition url_parses (u : string) : bool :=
  match strip_prefix "http://localhost:" u with
  | Some rest =>
      let p := port_chars rest in
      all_decimal p && (JsNumber.parse_digits 10 0 p <=? 65535)
  | None => true
  end.

(** What a call of [fetch] settles to, given the requests made so far: a
    URL that does not parse rejects with a [TypeError] before anything is
    sent, any other request is answered by the host. *)
Definition fetch_result (env : Env) (history : list request) (req : request)
  : result response :=
  if url_parses (req_url req) then net env history req
  else Throw (type_error (engine_message env) (InvalidUrl (req_url req))).

(** [await fetch(url, options)] *)
Definition fetch (env : Env) (req : request) : M response :=
  fun w => (fetch_result env (requests_of (trace w)) req, emit (EvFetch req) w).

Definition GET (url : string) : request := Request url "GET" [] None.

(** [await response.json()] *)
Definition json (r : response) : M value := lift (resp_json r).

(** ** The script *)

(** [function getBackendUrl()] *)
Definition getBackendUrl (w : World) : string :=
  let currentPort := location_port w in
  if JsString.truthy currentPort then
    let backendPort := JsNumber.sub (JsNumber.parseInt currentPort) (Num 1) in
    "http://localhost:" ++ JsNumber.to_string backendPort
  else
    "http://localhost:8002".

(** [const BACKEND_URL = getBackendUrl();] -- the port of the page does not
    change while the page lives. *)
Definition BACKEND_URL (w : World) : string := getBackendUrl w.

Definition no_files_html : string :=
  "<p class=" ++ JsString.dq ++ "no-files" ++ JsString.dq ++ ">No files generated yet</p>".

(** The template of one row of the file list. *)
Definition file_item_html (backendUrl name : string) : string :=
  let dq := JsString.dq in
  "
            <div class=" ++ dq ++ "file-item" ++ dq ++ ">
                <span class=" ++ dq ++ "file-name" ++ dq ++ " title=" ++ dq ++ name ++ dq ++ ">" ++ name ++ "</span>
                <a href=" ++ dq ++ backendUrl ++ "/files/" ++ name ++ dq ++ " 
                   class=" ++ dq ++ "download-btn" ++ dq ++ " 
                   download=" ++ dq ++ name ++ dq ++ "
                   target=" ++ dq ++ "_blank" ++ dq ++ ">
                   ⬇️ Download
                </a>
            </div>
        ".

Module AgentChat.

(** [getBackendUrl() { return window.BACKEND_URL || BACKEND_URL; }] *)
Definition getBackendUrl (w : World) : string :=
  match window_BACKEND_URL w with
  | Some u => if JsString.truthy u then u else BACKEND_URL w
  | None => BACKEND_URL w
  end.

Definition updateStatus (text className : string) : M unit :=
  modify (set_status text ("status " ++ className)).

(** [addMessage(content, type)]: the assignment to [textContent] converts
    [content] to a string, and nothing is attached when that throws. *)
Definition addMessage (env : Env) (content : value) (type : string) : M unit :=
  text <- lift (JsValue.dom_string (engine_message env) content) ;;
  modify (append_message (Message ("message " ++ type) text)).

Definition setLoading (loading : bool) : M unit :=
  if loading then modify (set_loading true "none" "inline")
  else modify (set_loading false "inline" "none").

(** The body of the arrow function of [files.map]. *)
Definition file_row (env : Env) (backendUrl : string) (file : value) : result string :=
  match JsValue.get_prop (engine_message env) file "filename" with
  | Throw e => Throw e
  | Ok filename =>
      match JsValue.to_string (engine_message env) filename with
      | Throw e => Throw e
      | Ok name => Ok (file_item_html backendUrl name)
      end
  end.

Fixpoint map_rows (env : Env) (backendUrl : string) (files : list value)
  : result (list string) :=
  match files with
  | [] => Ok []
  | file :: rest =>
      match file_row env backendUrl file with
      | Throw e => Throw e
      | Ok row =>
          match map_rows env backendUrl rest with
          | Throw e => Throw e
          | Ok rows => Ok (row :: rows)
          end
      end
  end.

(** [files.map(file => ...)]: only an array has a [map] to call. *)
Definition files_map (env : Env) (backendUrl : string) (files : value)
  : result (list string) :=
  match files with
  | VArr l => map_rows env backendUrl l
  | VUndefined | VNull => Throw (type_error (engine_message env) (ReadOfNullish "map"))
  | _ => Throw (type_error (engine_message env) (NotAFunction "files.map"))
  end.

Definition displayFiles (env : Env) (files : value) : M unit :=
  length <- lift (JsValue.get_prop (engine_message env) files "length") ;;
  if JsValue.strict_equals length (VNum (Num 0)) then
    modify (set_filesList_innerHTML no_files_html)
  else
    fun w =>
      let backendUrl := getBackendUrl w in
      (rows <- lift (files_map env backendUrl files) ;;
       modify (set_filesList_innerHTML (String.concat "" rows))) w.

Definition loadFiles (env : Env) : M unit :=
  try_catch
    (fun w =>
       let backendUrl := getBackendUrl w in
       (console "log" "Loading files from:" ;;;
        response <- fetch env (GET (backendUrl ++ "/files")) ;;
        result <- json response ;;
        files <- lift (JsValue.get_prop (engine_message env) result "files") ;;
        displayFiles env (JsValue.or_else files (VArr []))) w)
    (fun error => console "error" "Error loading files:").

Definition query_request (backendUrl message : string) : request :=
  Request (backendUrl ++ "/query") "POST"
    [("Content-Type", "application/json")]
    (Some (VObj [("prompt", VStr message); ("max_turns", VNum (Num 20))])).

Definition sendMessage (env : Env) : M unit :=
  fun w =>
    let message := JsString.trim (input_value w) in
    if negb (JsString.truthy message) then (Ok tt, w)
    else
      (addMessage env (VStr message) "user" ;;;
       modify (set_input_value "") ;;;
       setLoading true ;;;
       try_finally
         (try_catch
            (fun w1 =>
               let backendUrl := getBackendUrl w1 in
               (console "log" "Sending message to:" ;;;
                response <- fetch env (query_request backendUrl message) ;;
                result <- json response ;;
                status <- lift (JsValue.get_prop (engine_message env) result "status") ;;
                if JsValue.strict_equals status (VStr "success") then
                  reply <- lift (JsValue.get_prop (engine_message env) result "response") ;;
                  addMessage env reply "assistant" ;;;
                  modify (emit (EvTimeout CallLoadFiles 2000))
                else
                  error <- lift (JsValue.get_prop (engine_message env) result "error") ;;
                  detail <- lift (JsValue.to_string (engine_message env)
                                    (JsValue.or_else error (VStr "Unknown error"))) ;;
                  addMessage env (VStr ("Error: " ++ detail)) "assistant error") w1)
            (fun error =>
               addMessage env (VStr ("Connection error: " ++ error_message error))
                 "assistant error" ;;;
               updateStatus "🔴 Connection Error" "error"))
         (setLoading false)) w.

Definition port_url (port : number) : string :=
  "http://localhost:" ++ JsNumber.to_string port.

Definition portsToTry (w : World) : list number :=
  let currentPort := JsNumber.parseInt (location_port w) in
  [ JsNumber.sub currentPort (Num 1);
    JsNumber.add currentPort (Num 1);
    Num 8002;
    Num 8002; Num 8003; Num 8004; Num 8005; Num 8006; Num 8007; Num 8008 ].

(** One turn of the loop of [tryAlternativePorts]; [true] when the turn
    ends in [return]. *)
Definition tryPort (env : Env) (port : number) : M bool :=
  try_catch
    (let testUrl := port_url port in
     console "log" "Trying backend at:" ;;;
     response <- fetch env (GET (testUrl ++ "/health")) ;;
     if resp_ok response then
       console "log" "Found backend at port:" ;;;
       modify (set_window_BACKEND_URL testUrl) ;;;
       updateStatus "🟢 Connected" "connected" ;;;
       ret true
     else ret false)
    (fun e => ret false).

Fixpoint tryPorts (env : Env) (ports : list number) : M bool :=
  match ports with
  | [] => ret false
  | port :: rest =>
      returned <- tryPort env port ;;
      if returned then ret true else tryPorts env rest
  end.

Definition tryAlternativePorts (env : Env) : M unit :=
  fun w =>
    (returned <- tryPorts env (portsToTry w) ;;
     if returned then ret tt
     else updateStatus "🔴 No Backend Found" "error") w.

Definition checkBackendStatus (env : Env) : M unit :=
  try_catch
    (fun w =>
       (console "log" "Checking backend health at:" ;;;
        response <- fetch env (GET (BACKEND_URL w ++ "/health")) ;;
        if resp_ok response then
          data <- json response ;;
          updateStatus "🟢 Connected" "connected" ;;;
          console "log" "Backend health check passed:"
        else
          updateStatus "🔴 Backend Error" "error" ;;;
          console "error" "Backend health check failed:") w)
    (fun error =>
       console "error" "Backend connection error:" ;;;
       updateStatus "🔴 Disconnected" "error" ;;;
       tryAlternativePorts env).

(** [loadFiles] up to its first [await]: the request is issued, and what
    it settles to is kept for when the call goes on. *)
Definition loadFiles_begin (env : Env) : M response :=
  fun w =>
    let backendUrl := getBackendUrl w in
    (console "log" "Loading files from:" ;;;
     fetch env (GET (backendUrl ++ "/files"))) w.

(** [loadFiles] from its first [await] on. *)
Definition loadFiles_resume (env : Env) (settled : result response) : M unit :=
  try_catch
    (response <- lift settled ;;
     result <- json response ;;
     files <- lift (JsValue.get_prop (engine_message env) result "files") ;;
     displayFiles env (JsValue.or_else files (VArr [])))
    (fun error => console "error" "Error loading files:").

(** [checkBackendStatus] up to its first [await], and from there on. *)
Definition checkBackendStatus_begin (env : Env) : M response :=
  fun w =>
    (console "log" "Checking backend health at:" ;;;
     fetch env (GET (BACKEND_URL w ++ "/health"))) w.

Definition checkBackendStatus_resume (env : Env) (settled : result response) : M unit :=
  try_catch
    (response <- lift settled ;;
     if resp_ok response then
       data <- json response ;;
       updateStatus "🟢 Connected" "connected" ;;;
       console "log" "Backend health check passed:"
     else
       updateStatus "🔴 Backend Error" "error" ;;;
       console "error" "Backend health check failed:")
    (fun error =>
       console "error" "Backend connection error:" ;;;
       updateStatus "🔴 Disconnected" "error" ;;;
       tryAlternativePorts env).

(** [constructor()]: the listeners are the [Submit] action below.  The two
    calls are started without being awaited, so [loadFiles] runs up to its
    request, then [checkBackendStatus] runs up to its own, before either
    goes on.  Which one goes on first is decided by the order in which the
    responses arrive; this is the run in which the listing arrives first. *)
Definition constructor (env : Env) : M unit :=
  fun w =>
    let (listing_settled, w1) := loadFiles_begin env w in
    let (health_settled, w2) := checkBackendStatus_begin env w1 in
    (loadFiles_resume env listing_settled ;;;
     checkBackendStatus_resume env health_settled) w2.

End AgentChat.

(** [function loadFiles()], the handler of the refresh button, once
    [window.agentChat] is set. *)
Definition loadFiles (env : Env) : M unit := AgentChat.loadFiles env.

(** What can happen to the widget after it is constructed. *)
Inductive action : Type :=
| TypeInput (text : string)   (* the user edits #messageInput *)
| Submit                      (* submit of the form, or Enter: sendMessage() *)
| Refresh                     (* the refresh button: loadFiles() *)
| TimerFires (cb : callback). (* a timer set by sendMessage runs *)

Definition step (env : Env) (a : action) (w : World) : World :=
  match a with
  | TypeInput text => set_input_value text w
  | Submit => snd (AgentChat.sendMessage env w)
  | Refresh => snd (loadFiles env w)
  | TimerFires CallLoadFiles => snd (AgentChat.loadFiles env w)
  end.

Definition run (env : Env) (actions : list action) (w : World) : World :=
  fold_left (fun w a => step env a w) actions w.

(** ** Vocabulary of the statements *)

Definition user_bubble (text : string) : message :=
  Message "message user" text.

Definition assistant_bubble (text : string) : message :=
  Message "message assistant" text.

Definition error_bubble (text : string) : message :=
  Message "message assistant error" text.

(** The request [sendMessage] posts from the world [w]. *)
Definition query_of (w : World) : request :=
  AgentChat.query_request (AgentChat.getBackendUrl w) (JsString.trim (input_value w)).

(** What that [fetch] settles to, and what [response.json()] then gives. *)
Definition query_outcome (env : Env) (w : World) : result response :=
  fetch_result env (requests_of (trace w)) (query_of w).

Definition query_reply (env : Env) (w : World) : result value :=
  match query_outcome env w with
  | Ok resp => resp_json resp
  | Throw e => Throw e
  end.

(** The world of [sendMessage] while its request is pending. *)
Definition in_flight (w : World) : World :=
  emit (EvFetch (query_of w))
    (emit (EvConsole "log" "Sending message to:")
       (set_loading true "none" "inline"
          (set_input_value ""
             (append_message (user_bubble (JsString.trim (input_value w))) w)))).

(** The world [sendMessage] ends in when its [try] block throws [e]. *)
Definition after_throw (w : World) (e : exn) : World :=
  set_loading false "inline" "none"
    (set_status "🔴 Connection Error" "status error"
       (append_message (error_bubble ("Connection error: " ++ error_message e))
          (in_flight w))).

(** The same host, every response of which carries the status code [s]. *)
Definition with_status (s : Z) (env : Env) : Env :=
  {| net := fun history req =>
              match net env history req with
              | Ok resp => Ok (Response s (resp_json resp))
              | Throw e => Throw e
              end;
     engine_message := engine_message env |}.

(** The request [loadFiles] makes from [w], and what it settles to. *)
Definition files_of (w : World) : request :=
  GET (AgentChat.getBackendUrl w ++ "/files").

Definition files_reply (env : Env) (w : World) : result value :=
  match fetch_result env (requests_of (trace w)) (files_of w) with
  | Ok resp => resp_json resp
  | Throw e => Throw e
  end.

(** The health probe of a candidate port, and whether it passes when it
    is issued after the requests of [history]. *)
Definition health_request (port : number) : request :=
  GET (AgentChat.port_url port ++ "/health").

Definition probe_succeeds (env : Env) (history : list request) (port : number) : bool :=
  match fetch_result env history (health_request port) with
  | Ok resp => resp_ok resp
  | Throw _ => false
  end.

(** Every probe of [ports], issued one after the other, fails. *)
Fixpoint all_fail (env : Env) (history : list request) (ports : list number) : bool :=
  match ports with
  | [] => true
  | port :: rest =>
      negb (probe_succeeds env history port)
      && all_fail env (history ++ [health_request port])%list rest
  end.

(** The world after the probe of [port] was issued, after all the probes
    of [ports] were, and after the probe of [port] passed. *)
Definition probed (port : number) (w : World) : World :=
  emit (EvFetch (health_request port)) (emit (EvConsole "log" "Trying backend at:") w).

Definition probed_all (ports : list number) (w : World) : World :=
  fold_left (fun w port => probed port w) ports w.

Definition found_at (port : number) (w : World) : World :=
  set_status "🟢 Connected" "status connected"
    (set_window_BACKEND_URL (AgentChat.port_url port)
       (emit (EvConsole "log" "Found backend at port:") (probed port w))).

(** The world of [loadFiles] once its request is issued. *)
Definition listing (w : World) : World :=
  emit (EvFetch (files_of w)) (emit (EvConsole "log" "Loading files from:") w).

(** A file descriptor as the backend sends it. *)
Definition descriptor (filename : string) : value :=
  VObj [("filename", VStr filename)].

(** The requests a call after construction sends to the endpoint [base]. *)
Definition call_to (base : string) (r : request) : Prop :=
  (exists text, r = AgentChat.query_request base text) \/ r = GET (base ++ "/files").

(** The world of [checkBackendStatus] once the primary probe is issued. *)
Definition checking (w : World) : World :=
  emit (EvFetch (GET (BACKEND_URL w ++ "/health")))
    (emit (EvConsole "log" "Checking backend health at:") w).

(** ** Sample pages and hosts *)

Module Samples.

(** A page served on [port], freshly loaded, with [text] typed in. *)
Definition page (port text : string) : World :=
  {| location_port := port;
     window_BACKEND_URL := None;
     input_value := text;
     messages := [];
     sendButton_disabled := false;
     sendText_display := "inline";
     loading_display := "none";
     status_textContent := "Connecting...";
     status_className := "status";
     filesList_innerHTML := "";
     trace := [] |}.

Definition v8_message (k : error_kind) : string :=
  match k with
  | ReadOfNullish p => "Cannot read properties of null (reading '" ++ p ++ "')"
  | NotAFunction f => f ++ " is not a function"
  | NotPrimitive => "Cannot convert object to primitive value"
  | InvalidUrl u => "Failed to parse URL from " ++ u
  end.

(** A host that answers every request with the same response. *)
Definition always (r : result response) : Env :=
  {| net := fun _ _ => r; engine_message := v8_message |}.

Definition replies (status : Z) (body : value) : Env :=
  always (Ok (Response status (Ok body))).

Definition unreachable : Env := always (Throw (Exn "Failed to fetch")).

Definition unparsable : Env :=
  always (Ok (Response 200 (Throw (Exn "Unexpected end of JSON input")))).

Definition success_hi : value :=
  VObj [("status", VStr "success"); ("response", VStr "hi")].

Definition error_boom : value :=
  VObj [("status", VStr "error"); ("error", VStr "boom")].

(** A host on which only the backend at [url] is up. *)
Definition only_at (url : string) : Env :=
  {| net := fun _ req =>
              if String.eqb (req_url req) (url ++ "/health")
              then Ok (Response 200 (Ok (VObj [("status", VStr "healthy")])))
              else Throw (Exn "Failed to fetch");
     engine_message := v8_message |}.

Definition healthy : value :=
  VObj [("status", VStr "healthy"); ("files", VArr [])].

(** A backend at 8002 that answers the first two requests and is gone
    afterwards, while another one is up at 8004. *)
Definition outage : Env :=
  {| net := fun history req =>
              if (List.length history <? 2)%nat
              then Ok (Response 200 (Ok healthy))
              else if String.eqb (req_url req) "http://localhost:8004/health"
                   then Ok (Response 200 (Ok healthy))
                   else Throw (Exn "Failed to fetch");
     engine_message := v8_message |}.

(** A backend whose first answer lists [a.txt] and whose later answers
    are cut short. *)
Definition garbled_later : Env :=
  {| net := fun history req =>
              match history with
              | [] => Ok (Response 200 (Ok (VObj [("files", VArr [descriptor "a.txt"])])))
              | _ => Ok (Response 200 (Throw (Exn "Unexpected end of JSON input")))
              end;
     engine_message := v8_message |}.

End Samples.

(** ** Vocabulary of the further properties *)

(** The timers set so far, oldest first. *)
Definition timeouts_of (t : list event) : list (callback * Z) :=
  flat_map (fun e => match e with EvTimeout cb d => [(cb, d)] | _ => [] end) t.

(** The request of the primary probe, and the world of [checkBackendStatus]
    when that probe threw and the handler is about to try the candidates. *)
Definition primary_request (w : World) : request :=
  GET (BACKEND_URL w ++ "/health").

Definition disconnected (w : World) : World :=
  set_status "🔴 Disconnected" "status error"
    (emit (EvConsole "error" "Backend connection error:") (checking w)).

(** The three kinds of bubble the script attaches. *)
Definition is_bubble (m : message) : Prop :=
  className m = "message user"
  \/ className m = "message assistant"
  \/ className m = "message assistant error".

(** * Properties *)

(** ** Numbers and their decimal form *)

Lemma parse_uint_acc (d : uint) (acc : positive) :
  JsNumber.parse_digits 10 (Zpos acc) (NilEmpty.string_of_uint d)
  = Zpos (Pos.of_uint_acc d acc).
Proof.
  revert acc; induction d; intro acc; cbn [NilEmpty.string_of_uint Pos.of_uint_acc];
    try reflexivity;
    cbn [JsNumber.parse_digits];
    match goal with
    | |- context [JsNumber.radix_digit 10 ?c] =>
        let r := eval vm_compute in (JsNumber.radix_digit 10 c) in
        change (JsNumber.radix_digit 10 c) with r
    end;
    cbv iota beta;
    match goal with
    | |- JsNumber.parse_digits 10 ?a _ = Zpos (Pos.of_uint_acc _ ?b) =>
        replace a with (Zpos b) by lia
    end;
    apply IHd.
Qed.

Lemma parse_uint (d : uint) :
  JsNumber.parse_digits 10 0 (NilEmpty.string_of_uint d) = Z.of_N (Pos.of_uint d).
Proof.
  induction d; cbn [NilEmpty.string_of_uint Pos.of_uint]; try reflexivity;
    cbn [JsNumber.parse_digits];
    match goal with
    | |- context [JsNumber.radix_digit 10 ?c] =>
        let r := eval vm_compute in (JsNumber.radix_digit 10 c) in
        change (JsNumber.radix_digit 10 c) with r
    end;
    cbv iota beta;
    first [ exact IHd | apply parse_uint_acc ].
Qed.

Lemma parseInt_uint (d : uint) :
  d <> Nil ->
  JsNumber.parseInt (NilEmpty.string_of_uint d) = Num (Z.of_N (Pos.of_uint d)).
Proof.
  intro Hd.
  assert (Hshape : JsNumber.parseInt (NilEmpty.string_of_uint d)
                   = Num (1 * JsNumber.parse_digits 10 0 (NilEmpty.string_of_uint d))).
  { destruct d as [|d|d|d|d|d|d|d|d|d|d]; try contradiction;
      try reflexivity; destruct d; reflexivity. }
  rewrite Hshape, parse_uint. f_equal. lia.
Qed.

Lemma to_string_pos (p : positive) :
  JsNumber.to_string (Num (Zpos p)) = NilEmpty.string_of_uint (Pos.to_uint p).
Proof.
  unfold JsNumber.to_string. cbn [Z.to_int NilZero.string_of_int].
  unfold NilZero.string_of_uint.
  pose proof (DecimalPos.Unsigned.to_uint_nonnil p) as H.
  destruct (Pos.to_uint p); [contradiction | reflexivity ..].
Qed.

Lemma parseInt_to_string (P : Z) :
  0 < P -> JsNumber.parseInt (JsNumber.to_string (Num P)) = Num P.
Proof.
  intro HP. destruct P as [|p|p]; try lia.
  rewrite to_string_pos, parseInt_uint by apply DecimalPos.Unsigned.to_uint_nonnil.
  now rewrite DecimalPos.Unsigned.of_to.
Qed.

Lemma to_string_truthy (P : Z) :
  0 < P -> JsString.truthy (JsNumber.to_string (Num P)) = true.
Proof.
  intro HP. destruct P as [|p|p]; try lia.
  rewrite to_string_pos.
  pose proof (DecimalPos.Unsigned.to_uint_nonnil p) as H.
  destruct (Pos.to_uint p); [contradiction | reflexivity ..].
Qed.

(** ** [getBackendUrl] *)

(** C2. A page served on port P, 0 < P (and at most 65535, as ports are),
    gets the base URL whose port is P - 1; a page served with no port gets
    port 8002.  The function returns a string and no world, and the string
    depends on nothing but the port of the page. *)
Theorem getBackendUrl_port (w : World) :
  (forall P : Z,
      0 < P <= 65535 ->
      location_port w = JsNumber.to_string (Num P) ->
      getBackendUrl w = "http://localhost:" ++ JsNumber.to_string (Num (P - 1)))
  /\ (location_port w = "" -> getBackendUrl w = "http://localhost:8002")
  /\ (forall w' : World,
         location_port w' = location_port w -> getBackendUrl w' = getBackendUrl w).
Proof.
  split; [| split].
  - intros P [HP _] Hport. unfold getBackendUrl. rewrite Hport.
    rewrite to_string_truthy, parseInt_to_string by assumption.
    reflexivity.
  - intro Hport. unfold getBackendUrl. rewrite Hport. reflexivity.
  - intros w' Hport. unfold getBackendUrl. now rewrite Hport.
Qed.

Lemma getBackendUrl_port_witness :
  getBackendUrl (Samples.page "8003" "") = "http://localhost:8002"
  /\ getBackendUrl (Samples.page "" "") = "http://localhost:8002".
Proof.
  split.
  - apply (proj1 (getBackendUrl_port (Samples.page "8003" "")) 8003).
    + lia.
    + reflexivity.
  - apply (proj1 (proj2 (getBackendUrl_port (Samples.page "" "")))).
    reflexivity.
Defined.

(** ** Framing: what the updates of the world leave alone *)

Lemma requests_of_app (a b : list event) :
  requests_of (a ++ b) = (requests_of a ++ requests_of b)%list.
Proof. apply flat_map_app. Qed.

Lemma requests_of_console (l : list event) (m t : string) :
  requests_of (l ++ [EvConsole m t]) = requests_of l.
Proof. rewrite requests_of_app. apply app_nil_r. Qed.

Lemma requests_of_append (l : list event) (m : message) :
  requests_of (l ++ [EvAppend m]) = requests_of l.
Proof. rewrite requests_of_app. apply app_nil_r. Qed.

Lemma requests_of_timeout (l : list event) (cb : callback) (d : Z) :
  requests_of (l ++ [EvTimeout cb d]) = requests_of l.
Proof. rewrite requests_of_app. apply app_nil_r. Qed.

Lemma requests_of_fetch (l : list event) (r : request) :
  requests_of (l ++ [EvFetch r]) = (requests_of l ++ [r])%list.
Proof. now rewrite requests_of_app. Qed.

Lemma endpoint_frame (w w' : World) :
  window_BACKEND_URL w' = window_BACKEND_URL w ->
  location_port w' = location_port w ->
  AgentChat.getBackendUrl w' = AgentChat.getBackendUrl w.
Proof.
  intros Hu Hp. unfold AgentChat.getBackendUrl, BACKEND_URL, getBackendUrl.
  now rewrite Hu, Hp.
Qed.

Lemma endpoint_emit (e : event) (w : World) :
  AgentChat.getBackendUrl (emit e w) = AgentChat.getBackendUrl w.
Proof. now apply endpoint_frame. Qed.

Lemma endpoint_set_loading (a : bool) (b c : string) (w : World) :
  AgentChat.getBackendUrl (set_loading a b c w) = AgentChat.getBackendUrl w.
Proof. now apply endpoint_frame. Qed.

Lemma endpoint_set_input_value (s : string) (w : World) :
  AgentChat.getBackendUrl (set_input_value s w) = AgentChat.getBackendUrl w.
Proof. now apply endpoint_frame. Qed.

Lemma endpoint_append_message (m : message) (w : World) :
  AgentChat.getBackendUrl (append_message m w) = AgentChat.getBackendUrl w.
Proof. now apply endpoint_frame. Qed.

Lemma endpoint_set_status (a b : string) (w : World) :
  AgentChat.getBackendUrl (set_status a b w) = AgentChat.getBackendUrl w.
Proof. now apply endpoint_frame. Qed.

Lemma endpoint_set_filesList (h : string) (w : World) :
  AgentChat.getBackendUrl (set_filesList_innerHTML h w) = AgentChat.getBackendUrl w.
Proof. now apply endpoint_frame. Qed.

Create Rewrite HintDb world.
#[local] Hint Rewrite requests_of_console requests_of_append requests_of_timeout
  requests_of_fetch endpoint_emit endpoint_set_loading endpoint_set_input_value
  endpoint_append_message endpoint_set_status endpoint_set_filesList : world.

(** Runs the straight-line part of a method on a symbolic world. *)
Ltac run_method :=
  cbv [bind try_finally try_catch AgentChat.addMessage lift modify
       AgentChat.setLoading console fetch json AgentChat.updateStatus ret];
  cbn [JsValue.dom_string JsValue.to_string trace emit set_loading
       set_input_value append_message set_status set_filesList_innerHTML];
  autorewrite with world.

Lemma strict_equals_success (v : value) :
  JsValue.strict_equals v (VStr "success") = true <-> v = VStr "success".
Proof.
  split.
  - destruct v as [| |b|n|shown|s|l|props]; cbn; try discriminate;
      try (destruct n; discriminate).
    intro H. apply String.eqb_eq in H. now subst.
  - intros ->. reflexivity.
Qed.

Ltac requests_by_computation :=
  repeat rewrite requests_of_app;
  cbn [requests_of flat_map app];
  rewrite ?app_nil_r;
  reflexivity.

(** ** [sendMessage] *)

(** C8. When the trimmed input is empty, [sendMessage] returns at once:
    the world is the one it started from (no message, no request in the
    trace, no field changed) and nothing is thrown. *)
Theorem sendMessage_empty (env : Env) (w : World) :
  JsString.trim (input_value w) = "" ->
  AgentChat.sendMessage env w = (Ok tt, w).
Proof.
  intro Htrim. unfold AgentChat.sendMessage. now rewrite Htrim.
Qed.

Lemma sendMessage_empty_witness :
  AgentChat.sendMessage Samples.unreachable (Samples.page "8003" "   ")
  = (Ok tt, Samples.page "8003" "   ").
Proof.
  apply (sendMessage_empty Samples.unreachable (Samples.page "8003" "   ")).
  reflexivity.
Defined.

(** The success branch, for any reply the DOM can print. *)
Lemma sendMessage_replied (env : Env) (w : World) (result reply : value) (text : string) :
  JsString.trim (input_value w) <> "" ->
  query_reply env w = Ok result ->
  JsValue.get_prop (engine_message env) result "status" = Ok (VStr "success") ->
  JsValue.get_prop (engine_message env) result "response" = Ok reply ->
  JsValue.dom_string (engine_message env) reply = Ok text ->
  AgentChat.sendMessage env w
  = (Ok tt,
     set_loading false "inline" "none"
       (emit (EvTimeout CallLoadFiles 2000)
          (append_message (assistant_bubble text) (in_flight w)))).
Proof.
  intros Htext Hout Hstatus Hreply Hdom.
  unfold AgentChat.sendMessage, in_flight, query_of.
  unfold query_reply, query_outcome, query_of in Hout.
  destruct (JsString.trim (input_value w)) as [|c input] eqn:Etrim; [contradiction|].
  cbn [JsString.truthy negb].
  run_method.
  destruct (fetch_result _ _ _) as [resp|e]; [|discriminate].
  rewrite Hout, Hstatus. cbn [JsValue.strict_equals String.eqb Ascii.eqb Bool.eqb].
  rewrite Hreply, Hdom. reflexivity.
Qed.

Ltac enter_sendMessage Htext Hout :=
  unfold AgentChat.sendMessage, after_throw, in_flight, query_of;
  unfold query_reply, query_outcome, query_of in Hout;
  let c := fresh "c" in
  let input := fresh "input" in
  let Etrim := fresh "Etrim" in
  destruct (JsString.trim (input_value _)) as [|c input] eqn:Etrim;
  [contradiction|];
  cbn [JsString.truthy negb];
  run_method.

(** The request is rejected, or its body does not parse. *)
Lemma sendMessage_rejected (env : Env) (w : World) (e : exn) :
  JsString.trim (input_value w) <> "" ->
  query_reply env w = Throw e ->
  AgentChat.sendMessage env w = (Ok tt, after_throw w e).
Proof.
  intros Htext Hout. enter_sendMessage Htext Hout.
  destruct (fetch_result _ _ _) as [resp|e'].
  - rewrite Hout. reflexivity.
  - injection Hout as ->. reflexivity.
Qed.

(** The body is [null]: reading its [status] throws. *)
Lemma sendMessage_nullish (env : Env) (w : World) (result : value) (e : exn) :
  JsString.trim (input_value w) <> "" ->
  query_reply env w = Ok result ->
  JsValue.get_prop (engine_message env) result "status" = Throw e ->
  AgentChat.sendMessage env w = (Ok tt, after_throw w e).
Proof.
  intros Htext Hout Hstatus. enter_sendMessage Htext Hout.
  destruct (fetch_result _ _ _) as [resp|e']; [|discriminate].
  rewrite Hout, Hstatus. reflexivity.
Qed.

(** The [else] branch. *)
Lemma sendMessage_refused (env : Env) (w : World) (result status error : value)
      (detail : string) :
  JsString.trim (input_value w) <> "" ->
  query_reply env w = Ok result ->
  JsValue.get_prop (engine_message env) result "status" = Ok status ->
  status <> VStr "success" ->
  JsValue.get_prop (engine_message env) result "error" = Ok error ->
  JsValue.to_string (engine_message env) (JsValue.or_else error (VStr "Unknown error"))
  = Ok detail ->
  AgentChat.sendMessage env w
  = (Ok tt,
     set_loading false "inline" "none"
       (append_message (error_bubble ("Error: " ++ detail)) (in_flight w))).
Proof.
  intros Htext Hout Hstatus Hother Herror Hdetail. enter_sendMessage Htext Hout.
  destruct (fetch_result _ _ _) as [resp|e']; [|discriminate].
  rewrite Hout, Hstatus.
  destruct (JsValue.strict_equals status (VStr "success")) eqn:Eeq.
  { apply strict_equals_success in Eeq. contradiction. }
  rewrite Herror, Hdetail. reflexivity.
Qed.

(** The [else] branch, when [result.error] cannot be printed. *)
Lemma sendMessage_refused_unprintable (env : Env) (w : World)
      (result status error : value) (e : exn) :
  JsString.trim (input_value w) <> "" ->
  query_reply env w = Ok result ->
  JsValue.get_prop (engine_message env) result "status" = Ok status ->
  status <> VStr "success" ->
  JsValue.get_prop (engine_message env) result "error" = Ok error ->
  JsValue.to_string (engine_message env) (JsValue.or_else error (VStr "Unknown error"))
  = Throw e ->
  AgentChat.sendMessage env w = (Ok tt, after_throw w e).
Proof.
  intros Htext Hout Hstatus Hother Herror Hdetail. enter_sendMessage Htext Hout.
  destruct (fetch_result _ _ _) as [resp|e']; [|discriminate].
  rewrite Hout, Hstatus.
  destruct (JsValue.strict_equals status (VStr "success")) eqn:Eeq.
  { apply strict_equals_success in Eeq. contradiction. }
  rewrite Herror, Hdetail. reflexivity.
Qed.

Lemma get_prop_defined (msg : error_kind -> string) (v x : value) (k k' : string) :
  JsValue.get_prop msg v k = Ok x ->
  exists y, JsValue.get_prop msg v k' = Ok y.
Proof.
  destruct v as [| |b|n|shown|s|l|props]; cbn; try discriminate; intros _;
    try (eexists; reflexivity).
  - destruct (String.eqb k' "length"); eexists; reflexivity.
  - destruct (String.eqb k' "length"); eexists; reflexivity.
  - destruct (JsValue.own_property k' props); eexists; reflexivity.
Qed.

Lemma messages_in_flight (w : World) :
  messages (in_flight w)
  = (messages w ++ [user_bubble (JsString.trim (input_value w))])%list.
Proof. reflexivity. Qed.

Lemma trace_in_flight (w : World) :
  trace (in_flight w)
  = (trace w ++ [EvAppend (user_bubble (JsString.trim (input_value w)));
                 EvConsole "log" "Sending message to:";
                 EvFetch (query_of w)])%list.
Proof.
  unfold in_flight. cbn [trace emit set_loading set_input_value append_message].
  now rewrite <- !app_assoc.
Qed.

(** C1. With a non-empty trimmed input, a reply whose [status] is
    ["success"] and whose [response] is the string [r] makes [sendMessage]
    append exactly two messages: the user's text, then the assistant's [r].
    The trace shows the order: the user bubble is attached before [fetch]
    is called, the assistant bubble after it settled, and no other bubble
    is attached. *)
Theorem sendMessage_success (env : Env) (w : World) (result : value) (r : string) :
  JsString.trim (input_value w) <> "" ->
  query_reply env w = Ok result ->
  JsValue.get_prop (engine_message env) result "status" = Ok (VStr "success") ->
  JsValue.get_prop (engine_message env) result "response" = Ok (VStr r) ->
  let text := JsString.trim (input_value w) in
  let w' := snd (AgentChat.sendMessage env w) in
  fst (AgentChat.sendMessage env w) = Ok tt
  /\ messages w' = (messages w ++ [user_bubble text; assistant_bubble r])%list
  /\ trace w' = (trace w ++ [EvAppend (user_bubble text);
                             EvConsole "log" "Sending message to:";
                             EvFetch (query_of w);
                             EvAppend (assistant_bubble r);
                             EvTimeout CallLoadFiles 2000])%list.
Proof.
  intros Htext Hout Hstatus Hreply text w'. subst w'.
  rewrite (sendMessage_replied env w result (VStr r) r) by (assumption || reflexivity).
  cbn [fst snd]. split; [reflexivity | split].
  - cbn [messages set_loading emit append_message]. rewrite messages_in_flight.
    now rewrite <- app_assoc.
  - cbn [trace set_loading emit append_message]. rewrite trace_in_flight.
    now rewrite <- !app_assoc.
Qed.

Lemma sendMessage_success_witness :
  let w := Samples.page "8003" "hello" in
  let w' := snd (AgentChat.sendMessage (Samples.replies 200 Samples.success_hi) w) in
  fst (AgentChat.sendMessage (Samples.replies 200 Samples.success_hi) w) = Ok tt
  /\ messages w' = [user_bubble "hello"; assistant_bubble "hi"]
  /\ trace w' = [EvAppend (user_bubble "hello");
                 EvConsole "log" "Sending message to:";
                 EvFetch (query_of w);
                 EvAppend (assistant_bubble "hi");
                 EvTimeout CallLoadFiles 2000].
Proof.
  apply (sendMessage_success (Samples.replies 200 Samples.success_hi)
           (Samples.page "8003" "hello") Samples.success_hi "hi").
  - discriminate.
  - reflexivity.
  - reflexivity.
  - reflexivity.
Defined.

Lemma messages_after_throw (w : World) (e : exn) :
  messages (after_throw w e)
  = (messages w ++ [user_bubble (JsString.trim (input_value w));
                    error_bubble ("Connection error: " ++ error_message e)])%list.
Proof.
  unfold after_throw. cbn [messages set_loading set_status append_message].
  rewrite messages_in_flight. now rewrite <- app_assoc.
Qed.

Lemma requests_after_throw (w : World) (e : exn) :
  requests_of (trace (after_throw w e)) = (requests_of (trace w) ++ [query_of w])%list.
Proof.
  unfold after_throw. cbn [trace set_loading set_status append_message].
  rewrite trace_in_flight. requests_by_computation.
Qed.

Lemma messages_refused (w : World) (detail : string) :
  messages (set_loading false "inline" "none"
              (append_message (error_bubble detail) (in_flight w)))
  = (messages w ++ [user_bubble (JsString.trim (input_value w));
                    error_bubble detail])%list.
Proof.
  cbn [messages set_loading append_message].
  rewrite messages_in_flight. now rewrite <- app_assoc.
Qed.

Lemma or_else_truthy (a b : value) :
  JsValue.to_boolean a = true -> JsValue.or_else a b = a.
Proof. intro H. unfold JsValue.or_else. now rewrite H. Qed.

Lemma or_else_falsy (a b : value) :
  JsValue.to_boolean a = false -> JsValue.or_else a b = b.
Proof. intro H. unfold JsValue.or_else. now rewrite H. Qed.

(** C6. When the request was sent (the trimmed input is not empty) and the
    reply is not one whose [status] is ["success"] -- the request is
    rejected, the body does not parse, or it parses to something else --
    [sendMessage] appends, after the user's text, exactly one bubble of class
    [assistant error], and has called [fetch] exactly once (no retry).  The
    bubble carries the detail, whichever way the call failed:
    - the request was rejected or the body did not parse: "Connection
      error: " and the message of that error;
    - the body is [null]: "Connection error: " and the engine's message for
      reading [status] of [null];
    - the [error] field is a non-empty string: "Error: " and that string;
    - the [error] field is missing, [null], [false], [0], [NaN] or empty:
      "Error: Unknown error";
    - the [error] field is any other value: "Error: " and what the engine
      prints for it, or, when printing it throws, "Connection error: " and
      the message of that error. *)
Theorem sendMessage_failure (env : Env) (w : World) :
  JsString.trim (input_value w) <> "" ->
  (forall result,
      query_reply env w = Ok result ->
      JsValue.get_prop (engine_message env) result "status" <> Ok (VStr "success")) ->
  let text := JsString.trim (input_value w) in
  let w' := snd (AgentChat.sendMessage env w) in
  fst (AgentChat.sendMessage env w) = Ok tt
  /\ exists detail : string,
      messages w' = (messages w ++ [user_bubble text; error_bubble detail])%list
      /\ requests_of (trace w') = (requests_of (trace w) ++ [query_of w])%list
      /\ (forall e, query_reply env w = Throw e ->
                    detail = "Connection error: " ++ error_message e)
      /\ (query_reply env w = Ok VNull ->
          detail = "Connection error: " ++ engine_message env (ReadOfNullish "status"))
      /\ (forall result error,
             query_reply env w = Ok result ->
             JsValue.get_prop (engine_message env) result "error" = Ok error ->
             (forall s, error = VStr s -> s <> "" -> detail = "Error: " ++ s)
             /\ (error = VUndefined \/ error = VNull \/ error = VBool false
                 \/ error = VNum (Num 0) \/ error = VNum NaN \/ error = VStr "" ->
                 detail = "Error: Unknown error")
             /\ (forall d,
                    JsValue.to_boolean error = true ->
                    JsValue.wellformed error = true ->
                    JsValue.to_string (engine_message env) error = Ok d ->
                    detail = "Error: " ++ d)
             /\ (forall e,
                    JsValue.to_boolean error = true ->
                    JsValue.to_string (engine_message env) error = Throw e ->
                    detail = "Connection error: " ++ error_message e)).
Proof.
  intros Htext Hnot text w'. subst text w'.
  destruct (query_reply env w) as [result|e] eqn:Ereply.
  - specialize (Hnot result eq_refl).
    destruct (JsValue.get_prop (engine_message env) result "status")
      as [status|e] eqn:Estatus.
    + assert (Hother : status <> VStr "success") by congruence.
      assert (Hnotnull : result <> VNull).
      { intros ->. discriminate. }
      destruct (get_prop_defined _ _ _ _ "error" Estatus) as [error Eerror].
      destruct (JsValue.to_string (engine_message env)
                  (JsValue.or_else error (VStr "Unknown error")))
        as [detail|e] eqn:Edetail.
      * rewrite (sendMessage_refused env w result status error detail) by assumption.
        cbn [fst snd]. split; [reflexivity|].
        exists ("Error: " ++ detail).
        split; [apply messages_refused|].
        split; [cbn [trace set_loading append_message];
                rewrite trace_in_flight; requests_by_computation|].
        split; [discriminate|].
        split; [intros [= ->]; contradiction|].
        intros result' error' [= <-] Herror'.
        rewrite Eerror in Herror'. injection Herror' as <-.
        repeat apply conj.
        -- intros s -> Hs. destruct s as [|c s]; [contradiction|].
           cbn in Edetail. now injection Edetail as <-.
        -- intros Hfalsy.
           rewrite or_else_falsy in Edetail
             by (destruct Hfalsy as [-> | [-> | [-> | [-> | [-> | ->]]]]]; reflexivity).
           cbn in Edetail. now injection Edetail as <-.
        -- intros d Htruthy _ Hd. rewrite (or_else_truthy _ _ Htruthy) in Edetail.
           congruence.
        -- intros e Htruthy He. rewrite (or_else_truthy _ _ Htruthy) in Edetail.
           congruence.
      * rewrite (sendMessage_refused_unprintable env w result status error e)
          by assumption.
        cbn [fst snd]. split; [reflexivity|].
        exists ("Connection error: " ++ error_message e).
        split; [apply messages_after_throw|].
        split; [apply requests_after_throw|].
        split; [discriminate|].
        split; [intros [= ->]; contradiction|].
        intros result' error' [= <-] Herror'.
        rewrite Eerror in Herror'. injection Herror' as <-.
        repeat apply conj.
        -- intros s -> Hs. destruct s as [|c s]; [contradiction|]. discriminate.
        -- intros Hfalsy.
           rewrite or_else_falsy in Edetail
             by (destruct Hfalsy as [-> | [-> | [-> | [-> | [-> | ->]]]]]; reflexivity).
           discriminate.
        -- intros d Htruthy _ Hd. rewrite (or_else_truthy _ _ Htruthy) in Edetail.
           congruence.
        -- intros e' Htruthy He. rewrite (or_else_truthy _ _ Htruthy) in Edetail.
           congruence.
    + rewrite (sendMessage_nullish env w result e) by assumption.
      cbn [fst snd]. split; [reflexivity|].
      exists ("Connection error: " ++ error_message e).
      split; [apply messages_after_throw|].
      split; [apply requests_after_throw|].
      split; [discriminate|].
      split.
      * intros [= ->]. cbn in Estatus. now injection Estatus as <-.
      * intros result' error' [= <-] Herror'.
        destruct (get_prop_defined _ _ _ _ "status" Herror') as [y Hy]. congruence.
  - rewrite (sendMessage_rejected env w e) by assumption.
    cbn [fst snd]. split; [reflexivity|].
    exists ("Connection error: " ++ error_message e).
    split; [apply messages_after_throw|].
    split; [apply requests_after_throw|].
    split; [now intros e' [= <-]|].
    split; [discriminate|]. discriminate.
Qed.

(** The reply [{status: "error", error: "boom"}]: one bubble, "Error: boom". *)
Lemma sendMessage_failure_witness :
  let env := Samples.replies 200 Samples.error_boom in
  let w := Samples.page "8003" "hello" in
  let w' := snd (AgentChat.sendMessage env w) in
  fst (AgentChat.sendMessage env w) = Ok tt
  /\ messages w' = [user_bubble "hello"; error_bubble "Error: boom"]
  /\ requests_of (trace w') = [query_of w].
Proof.
  destruct (sendMessage_failure (Samples.replies 200 Samples.error_boom)
              (Samples.page "8003" "hello"))
    as (Hreturns & detail & Hmessages & Hrequests & _ & _ & Hdetail).
  - discriminate.
  - intros result [= <-]. discriminate.
  - destruct (Hdetail Samples.error_boom (VStr "boom") eq_refl eq_refl)
      as (Hstring & _).
    rewrite (Hstring "boom" eq_refl) in Hmessages by discriminate.
    split; [exact Hreturns|]. split; [exact Hmessages | exact Hrequests].
Defined.

(** The reply [{status: "error", error: "boom"}] of the specification. *)
Example sendMessage_boom :
  messages (snd (AgentChat.sendMessage (Samples.replies 200 Samples.error_boom)
                   (Samples.page "8003" "hello")))
  = [user_bubble "hello"; error_bubble "Error: boom"].
Proof. reflexivity. Qed.

Example sendMessage_unreachable :
  messages (snd (AgentChat.sendMessage Samples.unreachable (Samples.page "8003" "hello")))
  = [user_bubble "hello"; error_bubble "Connection error: Failed to fetch"].
Proof. reflexivity. Qed.

Example sendMessage_unparsable :
  messages (snd (AgentChat.sendMessage Samples.unparsable (Samples.page "8003" "hello")))
  = [user_bubble "hello"; error_bubble "Connection error: Unexpected end of JSON input"].
Proof. reflexivity. Qed.

Example sendMessage_no_error_field :
  messages (snd (AgentChat.sendMessage
                   (Samples.replies 200 (VObj [("status", VStr "failed")]))
                   (Samples.page "8003" "hello")))
  = [user_bubble "hello"; error_bubble "Error: Unknown error"].
Proof. reflexivity. Qed.

(** An [error] field that is a number beyond the safe integers is shown
    the way the engine prints it. *)
Example sendMessage_large_number_error :
  messages (snd (AgentChat.sendMessage
                   (Samples.replies 200
                      (VObj [("status", VStr "error"); ("error", VFloat "1e+21")]))
                   (Samples.page "8003" "hello")))
  = [user_bubble "hello"; error_bubble "Error: 1e+21"].
Proof. reflexivity. Qed.

Lemma fetch_result_with_status (s : Z) (env : Env) (history : list request)
      (req : request) :
  fetch_result (with_status s env) history req
  = match fetch_result env history req with
    | Ok resp => Ok (Response s (resp_json resp))
    | Throw e => Throw e
    end.
Proof.
  unfold fetch_result. cbn [with_status net engine_message].
  destruct (url_parses (req_url req)); reflexivity.
Qed.

(** C9. [sendMessage] never reads the status code of the response: giving
    every response of the host another code changes nothing.  So a reply
    with a code other than 200 whose body says [status: "success"] with the
    string [r] is shown as an ordinary assistant bubble, and a reply with
    code 200 whose body parses and says anything else is shown as an error
    bubble. *)
Theorem sendMessage_ignores_http_status (env : Env) (w : World) :
  (forall s : Z, AgentChat.sendMessage (with_status s env) w = AgentChat.sendMessage env w)
  /\ (forall resp result r,
         JsString.trim (input_value w) <> "" ->
         query_outcome env w = Ok resp ->
         resp_status resp <> 200 ->
         resp_json resp = Ok result ->
         JsValue.get_prop (engine_message env) result "status" = Ok (VStr "success") ->
         JsValue.get_prop (engine_message env) result "response" = Ok (VStr r) ->
         messages (snd (AgentChat.sendMessage env w))
         = (messages w ++ [user_bubble (JsString.trim (input_value w));
                           assistant_bubble r])%list)
  /\ (forall resp result,
         JsString.trim (input_value w) <> "" ->
         query_outcome env w = Ok resp ->
         resp_status resp = 200 ->
         resp_json resp = Ok result ->
         JsValue.get_prop (engine_message env) result "status" <> Ok (VStr "success") ->
         exists detail : string,
           messages (snd (AgentChat.sendMessage env w))
           = (messages w ++ [user_bubble (JsString.trim (input_value w));
                             error_bubble detail])%list).
Proof.
  split; [| split].
  - intro s. unfold AgentChat.sendMessage.
    destruct (JsString.trim (input_value w)) as [|c input]; [reflexivity|].
    cbn [JsString.truthy negb]. run_method.
    rewrite fetch_result_with_status. cbn [with_status engine_message].
    destruct (fetch_result env _ _) as [resp|e]; reflexivity.
  - intros resp result r Htext Hout _ Hjson Hstatus Hreply.
    assert (Hrep : query_reply env w = Ok result)
      by (unfold query_reply; now rewrite Hout).
    rewrite (sendMessage_replied env w result (VStr r) r) by (assumption || reflexivity).
    cbn [snd messages set_loading emit append_message].
    rewrite messages_in_flight. now rewrite <- app_assoc.
  - intros resp result Htext Hout _ Hjson Hstatus.
    assert (Hrep : query_reply env w = Ok result)
      by (unfold query_reply; now rewrite Hout).
    destruct (JsValue.get_prop (engine_message env) result "status")
      as [status|e] eqn:Estatus.
    + assert (Hother : status <> VStr "success") by congruence.
      destruct (get_prop_defined _ _ _ _ "error" Estatus) as [error Eerror].
      destruct (JsValue.to_string (engine_message env)
                  (JsValue.or_else error (VStr "Unknown error")))
        as [detail|e] eqn:Edetail.
      * rewrite (sendMessage_refused env w result status error detail) by assumption.
        exists ("Error: " ++ detail). apply messages_refused.
      * rewrite (sendMessage_refused_unprintable env w result status error e)
          by assumption.
        eexists. apply messages_after_throw.
    + rewrite (sendMessage_nullish env w result e) by assumption.
      eexists. apply messages_after_throw.
Qed.

Lemma sendMessage_ignores_http_status_witness :
  let env := Samples.replies 500 Samples.success_hi in
  let w := Samples.page "8003" "hello" in
  messages (snd (AgentChat.sendMessage env w))
  = [user_bubble "hello"; assistant_bubble "hi"].
Proof.
  apply (proj1 (proj2 (sendMessage_ignores_http_status
                         (Samples.replies 500 Samples.success_hi)
                         (Samples.page "8003" "hello")))
           (Response 500 (Ok Samples.success_hi)) Samples.success_hi "hi").
  - discriminate.
  - reflexivity.
  - discriminate.
  - reflexivity.
  - reflexivity.
  - reflexivity.
Defined.

(** ** [tryAlternativePorts] *)

Lemma tryPort_miss (env : Env) (port : number) (w : World) :
  probe_succeeds env (requests_of (trace w)) port = false ->
  AgentChat.tryPort env port w = (Ok false, probed port w).
Proof.
  unfold probe_succeeds, AgentChat.tryPort, probed, health_request. intro Hprobe.
  run_method.
  destruct (fetch_result _ _ _) as [resp|e]; [|reflexivity].
  now rewrite Hprobe.
Qed.

Lemma tryPort_hit (env : Env) (port : number) (w : World) :
  probe_succeeds env (requests_of (trace w)) port = true ->
  AgentChat.tryPort env port w = (Ok true, found_at port w).
Proof.
  unfold probe_succeeds, AgentChat.tryPort, found_at, probed, health_request.
  intro Hprobe. run_method.
  destruct (fetch_result _ _ _) as [resp|e]; [|discriminate].
  now rewrite Hprobe.
Qed.

Lemma requests_probed (port : number) (w : World) :
  requests_of (trace (probed port w))
  = (requests_of (trace w) ++ [health_request port])%list.
Proof.
  unfold probed. cbn [trace emit]. now autorewrite with world.
Qed.

Lemma requests_probed_all (ports : list number) (w : World) :
  requests_of (trace (probed_all ports w))
  = (requests_of (trace w) ++ map health_request ports)%list.
Proof.
  revert w. induction ports as [|port rest IH]; intro w; cbn [probed_all fold_left map].
  - now rewrite app_nil_r.
  - fold (probed_all rest (probed port w)).
    rewrite IH, requests_probed, <- app_assoc. reflexivity.
Qed.

Lemma override_probed_all (ports : list number) (w : World) :
  window_BACKEND_URL (probed_all ports w) = window_BACKEND_URL w.
Proof.
  revert w. induction ports as [|port rest IH]; intro w; [reflexivity|].
  cbn [probed_all fold_left]. fold (probed_all rest (probed port w)). now rewrite IH.
Qed.

Lemma port_of_probed_all (ports : list number) (w : World) :
  location_port (probed_all ports w) = location_port w.
Proof.
  revert w. induction ports as [|port rest IH]; intro w; [reflexivity|].
  cbn [probed_all fold_left]. fold (probed_all rest (probed port w)). now rewrite IH.
Qed.

Lemma status_probed_all (ports : list number) (w : World) :
  status_textContent (probed_all ports w) = status_textContent w
  /\ status_className (probed_all ports w) = status_className w.
Proof.
  revert w. induction ports as [|port rest IH]; intro w; [now split|].
  cbn [probed_all fold_left]. fold (probed_all rest (probed port w)).
  destruct (IH (probed port w)) as [-> ->]. now split.
Qed.

(** The loop on candidates that all fail: every one is probed, in order. *)
Lemma tryPorts_all_fail (env : Env) (ports : list number) (w : World) :
  all_fail env (requests_of (trace w)) ports = true ->
  AgentChat.tryPorts env ports w = (Ok false, probed_all ports w).
Proof.
  revert w. induction ports as [|port rest IH]; intros w Hall; [reflexivity|].
  cbn [all_fail] in Hall. apply andb_prop in Hall as [Hport Hrest].
  apply negb_true_iff in Hport.
  cbn [AgentChat.tryPorts]. unfold bind. rewrite (tryPort_miss _ _ _ Hport).
  cbn [probed_all fold_left]. fold (probed_all rest (probed port w)).
  apply IH. now rewrite requests_probed.
Qed.

(** The loop stops at the first candidate whose probe passes. *)
Lemma tryPorts_first_hit (env : Env) (pre post : list number) (port : number)
      (w : World) :
  all_fail env (requests_of (trace w)) pre = true ->
  probe_succeeds env (requests_of (trace w) ++ map health_request pre)%list port = true ->
  AgentChat.tryPorts env (pre ++ port :: post) w
  = (Ok true, found_at port (probed_all pre w)).
Proof.
  revert w. induction pre as [|p rest IH]; intros w Hall Hhit.
  - cbn [map] in Hhit. rewrite app_nil_r in Hhit.
    rewrite app_nil_l. cbn [AgentChat.tryPorts probed_all fold_left]. unfold bind.
    now rewrite (tryPort_hit _ _ _ Hhit).
  - cbn [all_fail] in Hall. apply andb_prop in Hall as [Hp Hrest].
    apply negb_true_iff in Hp.
    rewrite <- app_comm_cons. cbn [AgentChat.tryPorts]. unfold bind.
    rewrite (tryPort_miss _ _ _ Hp).
    cbn [probed_all fold_left]. fold (probed_all rest (probed p w)).
    apply IH.
    + now rewrite requests_probed.
    + rewrite requests_probed, <- app_assoc. exact Hhit.
Qed.

(** Either way the loop ends. *)
Lemma tryPorts_outcome (env : Env) (ports : list number) (w : World) :
  (all_fail env (requests_of (trace w)) ports = true
   /\ AgentChat.tryPorts env ports w = (Ok false, probed_all ports w))
  \/ (exists pre port post,
         ports = (pre ++ port :: post)%list
         /\ all_fail env (requests_of (trace w)) pre = true
         /\ probe_succeeds env (requests_of (trace w) ++ map health_request pre)%list port
            = true
         /\ AgentChat.tryPorts env ports w = (Ok true, found_at port (probed_all pre w))).
Proof.
  revert w. induction ports as [|p rest IH]; intro w.
  - left. now split.
  - destruct (probe_succeeds env (requests_of (trace w)) p) eqn:Ep.
    + right. exists [], p, rest. cbn [map app all_fail]. rewrite app_nil_r.
      repeat split; try assumption.
      apply (tryPorts_first_hit env [] rest p w); [reflexivity|].
      cbn [map]. now rewrite app_nil_r.
    + destruct (IH (probed p w)) as [[Hall Hrun] | (pre & port & post & -> & Hall & Hhit & Hrun)].
      * left. rewrite requests_probed in Hall. split.
        -- cbn [all_fail]. now rewrite Ep, Hall.
        -- apply tryPorts_all_fail. cbn [all_fail]. now rewrite Ep, Hall.
      * right. exists (p :: pre), port, post.
        rewrite requests_probed in Hall. rewrite requests_probed, <- app_assoc in Hhit.
        assert (Hall' : all_fail env (requests_of (trace w)) (p :: pre) = true).
        { cbn [all_fail]. now rewrite Ep, Hall. }
        repeat split; try assumption.
        apply (tryPorts_first_hit env (p :: pre) post port w Hall' Hhit).
Qed.

Lemma port_url_truthy (port : number) : JsString.truthy (AgentChat.port_url port) = true.
Proof. reflexivity. Qed.

Lemma probe_NaN_fails (env : Env) (history : list request) :
  probe_succeeds env history NaN = false.
Proof. reflexivity. Qed.

Lemma discovery_none (env : Env) (ports : list number) (w : World) :
  all_fail env (requests_of (trace w)) ports = true ->
  (returned <- AgentChat.tryPorts env ports ;;
   if returned then ret tt
   else AgentChat.updateStatus "🔴 No Backend Found" "error") w
  = (Ok tt, set_status "🔴 No Backend Found" "status error" (probed_all ports w)).
Proof.
  intro Hall. unfold bind. now rewrite (tryPorts_all_fail env ports w Hall).
Qed.

Lemma discovery_found (env : Env) (pre post : list number) (port : number) (w : World) :
  all_fail env (requests_of (trace w)) pre = true ->
  probe_succeeds env (requests_of (trace w) ++ map health_request pre)%list port = true ->
  (returned <- AgentChat.tryPorts env (pre ++ port :: post) ;;
   if returned then ret tt
   else AgentChat.updateStatus "🔴 No Backend Found" "error") w
  = (Ok tt, found_at port (probed_all pre w)).
Proof.
  intros Hall Hhit. unfold bind.
  now rewrite (tryPorts_first_hit env pre post port w Hall Hhit).
Qed.

Lemma none_found_world (ports : list number) (w : World) :
  let w' := set_status "🔴 No Backend Found" "status error" (probed_all ports w) in
  status_textContent w' = "🔴 No Backend Found"
  /\ status_className w' = "status error"
  /\ window_BACKEND_URL w' = window_BACKEND_URL w
  /\ (window_BACKEND_URL w = None -> window_BACKEND_URL w' = None)
  /\ AgentChat.getBackendUrl w' = AgentChat.getBackendUrl w
  /\ requests_of (trace w') = (requests_of (trace w) ++ map health_request ports)%list.
Proof.
  intro w'. subst w'.
  assert (Hover : window_BACKEND_URL
                    (set_status "🔴 No Backend Found" "status error" (probed_all ports w))
                  = window_BACKEND_URL w).
  { cbn [window_BACKEND_URL set_status]. apply override_probed_all. }
  split; [reflexivity|]. split; [reflexivity|]. split; [exact Hover|].
  split; [intro Hunset; now rewrite Hover|]. split.
  - apply endpoint_frame; [exact Hover|].
    cbn [location_port set_status]. apply port_of_probed_all.
  - cbn [trace set_status]. apply requests_probed_all.
Qed.

Lemma found_world (pre : list number) (port : number) (w : World) :
  let w' := found_at port (probed_all pre w) in
  requests_of (trace w')
  = (requests_of (trace w) ++ map health_request (pre ++ [port]))%list
  /\ window_BACKEND_URL w' = Some (AgentChat.port_url port)
  /\ AgentChat.getBackendUrl w' = AgentChat.port_url port
  /\ status_textContent w' = "🟢 Connected".
Proof.
  intro w'. subst w'. split; [|repeat apply conj; reflexivity].
  unfold found_at. cbn [trace set_status set_window_BACKEND_URL emit].
  autorewrite with world.
  rewrite requests_probed, requests_probed_all, map_app, <- app_assoc.
  reflexivity.
Qed.

(** C3. [tryAlternativePorts] probes a fixed, ordered list of candidates:
    the port of the page minus one, that port plus one, then 8002, and
    8002 again at the head of 8002..8008.  It probes them one after the
    other; when the candidates before [port] all fail and the probe of
    [port] passes, the probes issued are those of the candidates up to
    [port] and no further, in order, and [window.BACKEND_URL] -- hence the
    endpoint every later call reads -- becomes the URL of [port]. *)
Theorem tryAlternativePorts_first_success (env : Env) (w : World)
        (pre post : list number) (port : number) :
  AgentChat.portsToTry w = (pre ++ port :: post)%list ->
  all_fail env (requests_of (trace w)) pre = true ->
  probe_succeeds env (requests_of (trace w) ++ map health_request pre)%list port = true ->
  let currentPort := JsNumber.parseInt (location_port w) in
  let w' := snd (AgentChat.tryAlternativePorts env w) in
  AgentChat.portsToTry w
  = [ JsNumber.sub currentPort (Num 1); JsNumber.add currentPort (Num 1);
      Num 8002;
      Num 8002; Num 8003; Num 8004; Num 8005; Num 8006; Num 8007; Num 8008 ]
  /\ fst (AgentChat.tryAlternativePorts env w) = Ok tt
  /\ requests_of (trace w')
     = (requests_of (trace w) ++ map health_request (pre ++ [port]))%list
  /\ window_BACKEND_URL w' = Some (AgentChat.port_url port)
  /\ AgentChat.getBackendUrl w' = AgentChat.port_url port
  /\ status_textContent w' = "🟢 Connected".
Proof.
  intros Hsplit Hall Hhit currentPort w'. subst currentPort w'.
  split; [reflexivity|].
  unfold AgentChat.tryAlternativePorts. rewrite Hsplit.
  rewrite (discovery_found env pre post port w Hall Hhit). cbn [fst snd].
  split; [reflexivity|]. apply found_world.
Qed.

Lemma tryAlternativePorts_first_success_witness :
  let env := Samples.only_at "http://localhost:8004" in
  let w := Samples.page "8003" "" in
  let w' := snd (AgentChat.tryAlternativePorts env w) in
  AgentChat.portsToTry w
  = [ Num 8002; Num 8004; Num 8002;
      Num 8002; Num 8003; Num 8004; Num 8005; Num 8006; Num 8007; Num 8008 ]
  /\ fst (AgentChat.tryAlternativePorts env w) = Ok tt
  /\ requests_of (trace w') = [health_request (Num 8002); health_request (Num 8004)]
  /\ window_BACKEND_URL w' = Some "http://localhost:8004"
  /\ AgentChat.getBackendUrl w' = "http://localhost:8004"
  /\ status_textContent w' = "🟢 Connected".
Proof.
  apply (tryAlternativePorts_first_success (Samples.only_at "http://localhost:8004")
           (Samples.page "8003" "") [Num 8002]
           [Num 8002; Num 8002; Num 8003; Num 8004; Num 8005; Num 8006; Num 8007;
            Num 8008]
           (Num 8004)).
  - reflexivity.
  - reflexivity.
  - reflexivity.
Defined.

(** C4. When the probe of every candidate fails, [tryAlternativePorts]
    shows the status "No Backend Found" and leaves [window.BACKEND_URL] as
    it was -- unset, when it was unset -- so the endpoint later calls read
    is the one they read before.  Every candidate was probed once, in
    order. *)
Theorem tryAlternativePorts_none_found (env : Env) (w : World) :
  all_fail env (requests_of (trace w)) (AgentChat.portsToTry w) = true ->
  let w' := snd (AgentChat.tryAlternativePorts env w) in
  fst (AgentChat.tryAlternativePorts env w) = Ok tt
  /\ status_textContent w' = "🔴 No Backend Found"
  /\ status_className w' = "status error"
  /\ window_BACKEND_URL w' = window_BACKEND_URL w
  /\ (window_BACKEND_URL w = None -> window_BACKEND_URL w' = None)
  /\ AgentChat.getBackendUrl w' = AgentChat.getBackendUrl w
  /\ requests_of (trace w')
     = (requests_of (trace w) ++ map health_request (AgentChat.portsToTry w))%list.
Proof.
  intros Hall w'. subst w'.
  unfold AgentChat.tryAlternativePorts.
  rewrite (discovery_none env _ w Hall). cbn [fst snd].
  split; [reflexivity|]. apply none_found_world.
Qed.

Lemma tryAlternativePorts_none_found_witness :
  let env := Samples.unreachable in
  let w := Samples.page "8003" "" in
  let w' := snd (AgentChat.tryAlternativePorts env w) in
  fst (AgentChat.tryAlternativePorts env w) = Ok tt
  /\ status_textContent w' = "🔴 No Backend Found"
  /\ status_className w' = "status error"
  /\ window_BACKEND_URL w' = window_BACKEND_URL w
  /\ (window_BACKEND_URL w = None -> window_BACKEND_URL w' = None)
  /\ AgentChat.getBackendUrl w' = AgentChat.getBackendUrl w
  /\ requests_of (trace w')
     = (requests_of (trace w) ++ map health_request (AgentChat.portsToTry w))%list.
Proof.
  apply (tryAlternativePorts_none_found Samples.unreachable (Samples.page "8003" "")).
  reflexivity.
Defined.

(** C10. On a page whose URL has no port, [parseInt] of the empty port is
    [NaN], so the first two candidates are [NaN] and their probe URL is
    [http://localhost:NaN]; such a URL does not parse, so its probe fails
    whatever the host.  Discovery then either fails on every candidate
    (status "No Backend Found", override untouched) or sets the override to
    the URL of one of the fixed ports 8002..8008. *)
Theorem tryAlternativePorts_no_port (env : Env) (w : World) :
  location_port w = "" ->
  let w' := snd (AgentChat.tryAlternativePorts env w) in
  JsNumber.parseInt (location_port w) = NaN
  /\ AgentChat.portsToTry w
     = [ NaN; NaN; Num 8002;
         Num 8002; Num 8003; Num 8004; Num 8005; Num 8006; Num 8007; Num 8008 ]
  /\ AgentChat.port_url NaN = "http://localhost:NaN"
  /\ req_url (health_request NaN) = "http://localhost:NaN/health"
  /\ (forall history, probe_succeeds env history NaN = false)
  /\ ((status_textContent w' = "🔴 No Backend Found"
       /\ window_BACKEND_URL w' = window_BACKEND_URL w)
      \/ (exists p : Z,
             8002 <= p <= 8008
             /\ window_BACKEND_URL w' = Some (AgentChat.port_url (Num p))
             /\ status_textContent w' = "🟢 Connected")).
Proof.
  intros Hport w'. subst w'.
  assert (Hports : AgentChat.portsToTry w
                   = [ NaN; NaN; Num 8002; Num 8002; Num 8003; Num 8004; Num 8005;
                       Num 8006; Num 8007; Num 8008 ]).
  { unfold AgentChat.portsToTry. now rewrite Hport. }
  split; [now rewrite Hport|]. split; [exact Hports|]. split; [reflexivity|].
  split; [reflexivity|]. split; [intro history; apply probe_NaN_fails|].
  unfold AgentChat.tryAlternativePorts. rewrite Hports.
  revert Hports. generalize (AgentChat.portsToTry w) as ports. intros ports Hports.
  destruct (tryPorts_outcome env
              [ NaN; NaN; Num 8002; Num 8002; Num 8003; Num 8004; Num 8005;
                Num 8006; Num 8007; Num 8008 ] w)
    as [[Hall _] | (pre & port & post & Hsplit & Hall & Hhit & _)].
  - left. rewrite (discovery_none env _ w Hall). cbn [snd].
    rewrite <- Hports. split; apply (none_found_world ports w).
  - right. rewrite Hsplit.
    rewrite (discovery_found env pre post port w Hall Hhit). cbn [snd].
    assert (Hin : In port [ NaN; NaN; Num 8002; Num 8002; Num 8003; Num 8004;
                            Num 8005; Num 8006; Num 8007; Num 8008 ]).
    { rewrite Hsplit. apply in_elt. }
    assert (Hnum : exists p, 8002 <= p <= 8008 /\ port = Num p).
    { cbn [In] in Hin.
      repeat (destruct Hin as [<- | Hin];
              [ first [ now rewrite probe_NaN_fails in Hhit
                      | eexists; split; [|reflexivity]; lia ] | ]).
      contradiction. }
    destruct Hnum as (p & Hp & ->). exists p.
    split; [exact Hp|]. split; apply (found_world pre (Num p) w).
Qed.

Lemma tryAlternativePorts_no_port_witness :
  let env := Samples.only_at "http://localhost:8003" in
  let w := Samples.page "" "" in
  let w' := snd (AgentChat.tryAlternativePorts env w) in
  JsNumber.parseInt (location_port w) = NaN
  /\ AgentChat.portsToTry w
     = [ NaN; NaN; Num 8002;
         Num 8002; Num 8003; Num 8004; Num 8005; Num 8006; Num 8007; Num 8008 ]
  /\ AgentChat.port_url NaN = "http://localhost:NaN"
  /\ req_url (health_request NaN) = "http://localhost:NaN/health"
  /\ (forall history, probe_succeeds env history NaN = false)
  /\ ((status_textContent w' = "🔴 No Backend Found"
       /\ window_BACKEND_URL w' = window_BACKEND_URL w)
      \/ (exists p : Z,
             8002 <= p <= 8008
             /\ window_BACKEND_URL w' = Some (AgentChat.port_url (Num p))
             /\ status_textContent w' = "🟢 Connected")).
Proof.
  apply (tryAlternativePorts_no_port (Samples.only_at "http://localhost:8003")
           (Samples.page "" "")).
  reflexivity.
Defined.

Example discovery_without_port :
  window_BACKEND_URL
    (snd (AgentChat.tryAlternativePorts (Samples.only_at "http://localhost:8003")
            (Samples.page "" "")))
  = Some "http://localhost:8003".
Proof. reflexivity. Qed.

(** ** [checkBackendStatus] *)

(** The primary probe throws (the request is rejected, or the body of an OK
    response does not parse): the fallback candidates are tried. *)
Lemma checkBackendStatus_escalates (env : Env) (w : World) (e : exn) :
  (fetch_result env (requests_of (trace w)) (GET (BACKEND_URL w ++ "/health")) = Throw e
   \/ exists resp,
       fetch_result env (requests_of (trace w)) (GET (BACKEND_URL w ++ "/health")) = Ok resp
       /\ resp_ok resp = true /\ resp_json resp = Throw e) ->
  AgentChat.checkBackendStatus env w
  = AgentChat.tryAlternativePorts env
      (set_status "🔴 Disconnected" "status error"
         (emit (EvConsole "error" "Backend connection error:") (checking w))).
Proof.
  intros [Hfetch | (resp & Hfetch & Hok & Hjson)];
    unfold AgentChat.checkBackendStatus, checking; run_method;
    rewrite Hfetch; [reflexivity|].
  rewrite Hok, Hjson. reflexivity.
Qed.

(** The primary answers with a status outside 200..299: the status line
    says so and no candidate is tried. *)
Lemma checkBackendStatus_backend_error (env : Env) (w : World) (resp : response) :
  fetch_result env (requests_of (trace w)) (GET (BACKEND_URL w ++ "/health")) = Ok resp ->
  resp_ok resp = false ->
  AgentChat.checkBackendStatus env w
  = (Ok tt,
     emit (EvConsole "error" "Backend health check failed:")
       (set_status "🔴 Backend Error" "status error" (checking w))).
Proof.
  intros Hfetch Hok. unfold AgentChat.checkBackendStatus, checking. run_method.
  rewrite Hfetch, Hok. reflexivity.
Qed.

Lemma checkBackendStatus_connected (env : Env) (w : World) (resp : response)
      (data : value) :
  fetch_result env (requests_of (trace w)) (GET (BACKEND_URL w ++ "/health")) = Ok resp ->
  resp_ok resp = true ->
  resp_json resp = Ok data ->
  AgentChat.checkBackendStatus env w
  = (Ok tt,
     emit (EvConsole "log" "Backend health check passed:")
       (set_status "🟢 Connected" "status connected" (checking w))).
Proof.
  intros Hfetch Hok Hjson. unfold AgentChat.checkBackendStatus, checking. run_method.
  rewrite Hfetch, Hok, Hjson. reflexivity.
Qed.

(** After a primary probe that passed, the calls go to [BACKEND_URL]. *)
Lemma checkBackendStatus_validated (env : Env) (w : World) (resp : response)
      (data : value) :
  window_BACKEND_URL w = None ->
  fetch_result env (requests_of (trace w)) (GET (BACKEND_URL w ++ "/health")) = Ok resp ->
  resp_ok resp = true ->
  resp_json resp = Ok data ->
  AgentChat.getBackendUrl (snd (AgentChat.checkBackendStatus env w)) = BACKEND_URL w.
Proof.
  intros Hunset Hfetch Hok Hjson.
  rewrite (checkBackendStatus_connected env w resp data Hfetch Hok Hjson).
  cbn [snd]. unfold checking. autorewrite with world.
  unfold AgentChat.getBackendUrl. now rewrite Hunset.
Qed.

(** The two halves of each call make the call. *)
Lemma loadFiles_begin_resume (env : Env) (w : World) :
  AgentChat.loadFiles env w
  = AgentChat.loadFiles_resume env (fst (AgentChat.loadFiles_begin env w))
      (snd (AgentChat.loadFiles_begin env w)).
Proof.
  unfold AgentChat.loadFiles, AgentChat.loadFiles_resume, AgentChat.loadFiles_begin.
  run_method. cbn [fst snd].
  destruct (fetch_result _ _ _) as [resp|e]; reflexivity.
Qed.

Lemma checkBackendStatus_begin_resume (env : Env) (w : World) :
  AgentChat.checkBackendStatus env w
  = AgentChat.checkBackendStatus_resume env
      (fst (AgentChat.checkBackendStatus_begin env w))
      (snd (AgentChat.checkBackendStatus_begin env w)).
Proof.
  unfold AgentChat.checkBackendStatus, AgentChat.checkBackendStatus_resume,
    AgentChat.checkBackendStatus_begin.
  run_method. cbn [fst snd].
  destruct (fetch_result _ _ _) as [resp|e]; reflexivity.
Qed.

(** Construction on a page whose backend answers: the listing request goes
    out first, the health probe second, and only then is either handled. *)
Example constructor_starts_both_calls :
  trace (snd (AgentChat.constructor (Samples.replies 200 Samples.healthy)
                (Samples.page "8003" "")))
  = [EvConsole "log" "Loading files from:";
     EvFetch (GET "http://localhost:8002/files");
     EvConsole "log" "Checking backend health at:";
     EvFetch (GET "http://localhost:8002/health");
     EvConsole "log" "Backend health check passed:"].
Proof. vm_compute. reflexivity. Qed.

Example backend_error_is_not_escalated :
  let w' := snd (AgentChat.checkBackendStatus
                   (Samples.replies 500 Samples.healthy) (Samples.page "8003" "")) in
  status_textContent w' = "🔴 Backend Error"
  /\ requests_of (trace w') = [GET "http://localhost:8002/health"]
  /\ window_BACKEND_URL w' = None.
Proof. vm_compute. repeat apply conj; reflexivity. Qed.

(** ** [loadFiles] and [displayFiles] *)

Lemma displayFiles_cases (env : Env) (files : value) (w : World) :
  (exists html, AgentChat.displayFiles env files w
                = (Ok tt, set_filesList_innerHTML html w))
  \/ (exists e, AgentChat.displayFiles env files w = (Throw e, w)).
Proof.
  unfold AgentChat.displayFiles, bind, lift, modify.
  destruct (JsValue.get_prop (engine_message env) files "length") as [len|e].
  - destruct (JsValue.strict_equals len (VNum (Num 0))).
    + left. eexists. reflexivity.
    + destruct (AgentChat.files_map env (AgentChat.getBackendUrl w) files) as [rows|e].
      * left. eexists. reflexivity.
      * right. eexists. reflexivity.
  - right. eexists. reflexivity.
Qed.

Ltac enter_loadFiles :=
  unfold AgentChat.loadFiles, listing, files_of; run_method.

(** The request is rejected or its body does not parse: the error is
    logged and the list on the page is not touched. *)
Lemma loadFiles_rejected (env : Env) (w : World) (e : exn) :
  files_reply env w = Throw e ->
  AgentChat.loadFiles env w
  = (Ok tt, emit (EvConsole "error" "Error loading files:") (listing w)).
Proof.
  unfold files_reply, files_of. intro Hreply. enter_loadFiles.
  destruct (fetch_result _ _ _) as [resp|e']; [|reflexivity].
  now rewrite Hreply.
Qed.

(** The body is [null]: reading its [files] throws. *)
Lemma loadFiles_nullish (env : Env) (w : World) (result : value) (e : exn) :
  files_reply env w = Ok result ->
  JsValue.get_prop (engine_message env) result "files" = Throw e ->
  AgentChat.loadFiles env w
  = (Ok tt, emit (EvConsole "error" "Error loading files:") (listing w)).
Proof.
  unfold files_reply, files_of. intros Hreply Hfiles. enter_loadFiles.
  destruct (fetch_result _ _ _) as [resp|e']; [|discriminate].
  now rewrite Hreply, Hfiles.
Qed.

(** The body has a [files] field: what [displayFiles] does decides. *)
Lemma loadFiles_displays (env : Env) (w : World) (result files : value) :
  files_reply env w = Ok result ->
  JsValue.get_prop (engine_message env) result "files" = Ok files ->
  AgentChat.loadFiles env w
  = match AgentChat.displayFiles env (JsValue.or_else files (VArr [])) (listing w) with
    | (Ok a, w') => (Ok a, w')
    | (Throw _, w') => (Ok tt, emit (EvConsole "error" "Error loading files:") w')
    end.
Proof.
  unfold files_reply, files_of. intros Hreply Hfiles. enter_loadFiles.
  destruct (fetch_result _ _ _) as [resp|e']; [|discriminate].
  rewrite Hreply, Hfiles. reflexivity.
Qed.

Lemma loadFiles_cases (env : Env) (w : World) :
  (exists html, AgentChat.loadFiles env w
                = (Ok tt, set_filesList_innerHTML html (listing w)))
  \/ AgentChat.loadFiles env w
     = (Ok tt, emit (EvConsole "error" "Error loading files:") (listing w)).
Proof.
  destruct (files_reply env w) as [result|e] eqn:Ereply.
  - destruct (JsValue.get_prop (engine_message env) result "files") as [files|e] eqn:Efiles.
    + rewrite (loadFiles_displays env w result files Ereply Efiles).
      destruct (displayFiles_cases env (JsValue.or_else files (VArr [])) (listing w))
        as [[html ->] | [e ->]].
      * left. now exists html.
      * now right.
    + right. now apply (loadFiles_nullish env w result e).
  - right. now apply (loadFiles_rejected env w e).
Qed.

Lemma loadFiles_returns (env : Env) (w : World) :
  fst (AgentChat.loadFiles env w) = Ok tt.
Proof.
  destruct (loadFiles_cases env w) as [[html ->] | ->]; reflexivity.
Qed.

(** A body without a usable [files] field, or with an empty array. *)
Lemma loadFiles_no_files (env : Env) (w : World) (result files : value) :
  files_reply env w = Ok result ->
  JsValue.get_prop (engine_message env) result "files" = Ok files ->
  JsValue.to_boolean files = false \/ files = VArr [] ->
  AgentChat.loadFiles env w
  = (Ok tt, set_filesList_innerHTML no_files_html (listing w)).
Proof.
  intros Hreply Hfiles Hempty.
  rewrite (loadFiles_displays env w result files Hreply Hfiles).
  assert (Hshown : JsValue.or_else files (VArr []) = VArr []).
  { unfold JsValue.or_else. destruct Hempty as [-> | ->]; reflexivity. }
  rewrite Hshown. reflexivity.
Qed.

(** A truthy [files] that is neither an array nor an object has no [map]:
    the call throws and the list on the page is not touched. *)
Lemma loadFiles_not_a_list (env : Env) (w : World) (result files : value) :
  files_reply env w = Ok result ->
  JsValue.get_prop (engine_message env) result "files" = Ok files ->
  JsValue.to_boolean files = true ->
  (forall l, files <> VArr l) ->
  (forall props, files <> VObj props) ->
  AgentChat.loadFiles env w
  = (Ok tt, emit (EvConsole "error" "Error loading files:") (listing w)).
Proof.
  intros Hreply Hfiles Htruthy Harr Hobj.
  rewrite (loadFiles_displays env w result files Hreply Hfiles).
  unfold JsValue.or_else. rewrite Htruthy.
  destruct files as [| |b|n|shown|s|l|props]; try discriminate.
  - reflexivity.
  - reflexivity.
  - reflexivity.
  - destruct s as [|c s]; [discriminate|].
    unfold AgentChat.displayFiles, bind, lift.
    cbn [JsValue.get_prop String.eqb Ascii.eqb Bool.eqb String.length].
    rewrite Nat2Z.inj_succ.
    destruct (Z.succ (Z.of_nat (String.length s))) eqn:E; try reflexivity. lia.
  - now destruct (Harr l).
  - now destruct (Hobj props).
Qed.

Lemma trace_listing (w : World) :
  trace (listing w)
  = (trace w ++ [EvConsole "log" "Loading files from:";
                 EvFetch (GET (AgentChat.getBackendUrl w ++ "/files"))])%list.
Proof.
  unfold listing, files_of. cbn [trace emit]. now rewrite <- app_assoc.
Qed.

Lemma trace_listing_failed (w : World) :
  trace (emit (EvConsole "error" "Error loading files:") (listing w))
  = (trace w ++ [EvConsole "log" "Loading files from:";
                 EvFetch (GET (AgentChat.getBackendUrl w ++ "/files"));
                 EvConsole "error" "Error loading files:"])%list.
Proof.
  cbn [trace emit]. rewrite trace_listing. now rewrite <- app_assoc.
Qed.

(** C7, as the script has it.  [loadFiles] never throws to its caller.  A
    body that parses to a value other than [null] whose [files] is missing,
    falsy or an empty array renders the empty-state indicator, and nothing
    is logged as an error.  When the request is rejected, the body does not
    parse, the body is [null], or [files] is a truthy value that is neither
    an array nor an object, the error is caught and logged -- the trace
    ends with the request and then the [console.error] of the [catch]
    block -- and the list on the page stays as it was. *)
Theorem loadFiles_degrades (env : Env) (w : World) :
  let w' := snd (AgentChat.loadFiles env w) in
  let request := GET (AgentChat.getBackendUrl w ++ "/files") in
  let rendered :=
    (trace w ++ [EvConsole "log" "Loading files from:"; EvFetch request])%list in
  let caught :=
    (trace w ++ [EvConsole "log" "Loading files from:"; EvFetch request;
                 EvConsole "error" "Error loading files:"])%list in
  fst (AgentChat.loadFiles env w) = Ok tt
  /\ (forall result files,
         files_reply env w = Ok result ->
         JsValue.get_prop (engine_message env) result "files" = Ok files ->
         JsValue.to_boolean files = false \/ files = VArr [] ->
         filesList_innerHTML w' = no_files_html /\ trace w' = rendered)
  /\ (forall e, files_reply env w = Throw e ->
                filesList_innerHTML w' = filesList_innerHTML w /\ trace w' = caught)
  /\ (forall result e,
         files_reply env w = Ok result ->
         JsValue.get_prop (engine_message env) result "files" = Throw e ->
         filesList_innerHTML w' = filesList_innerHTML w /\ trace w' = caught)
  /\ (forall result files,
         files_reply env w = Ok result ->
         JsValue.get_prop (engine_message env) result "files" = Ok files ->
         JsValue.to_boolean files = true ->
         (forall l, files <> VArr l) ->
         (forall props, files <> VObj props) ->
         filesList_innerHTML w' = filesList_innerHTML w /\ trace w' = caught).
Proof.
  intros w' request rendered caught. subst w' request rendered caught.
  split; [apply loadFiles_returns|]. repeat apply conj.
  - intros result files Hreply Hfiles Hempty.
    rewrite (loadFiles_no_files env w result files Hreply Hfiles Hempty).
    cbn [snd]. split; [reflexivity|].
    cbn [trace set_filesList_innerHTML]. apply trace_listing.
  - intros e Hreply. rewrite (loadFiles_rejected env w e Hreply).
    cbn [snd]. split; [reflexivity | apply trace_listing_failed].
  - intros result e Hreply Hfiles.
    rewrite (loadFiles_nullish env w result e Hreply Hfiles).
    cbn [snd]. split; [reflexivity | apply trace_listing_failed].
  - intros result files Hreply Hfiles Htruthy Harr Hobj.
    rewrite (loadFiles_not_a_list env w result files Hreply Hfiles Htruthy Harr Hobj).
    cbn [snd]. split; [reflexivity | apply trace_listing_failed].
Qed.

Lemma loadFiles_degrades_witness :
  let w := Samples.page "8003" "" in
  let empty := snd (AgentChat.loadFiles (Samples.replies 200 (VObj [("files", VArr [])])) w) in
  let garbled := snd (AgentChat.loadFiles Samples.unparsable w) in
  (filesList_innerHTML empty = no_files_html
   /\ trace empty = [EvConsole "log" "Loading files from:";
                     EvFetch (GET "http://localhost:8002/files")])
  /\ (filesList_innerHTML garbled = filesList_innerHTML w
      /\ trace garbled = [EvConsole "log" "Loading files from:";
                          EvFetch (GET "http://localhost:8002/files");
                          EvConsole "error" "Error loading files:"]).
Proof.
  split.
  - apply (proj1 (proj2 (loadFiles_degrades
                           (Samples.replies 200 (VObj [("files", VArr [])]))
                           (Samples.page "8003" "")))
             (VObj [("files", VArr [])]) (VArr [])).
    + reflexivity.
    + reflexivity.
    + right. reflexivity.
  - apply (proj1 (proj2 (proj2 (loadFiles_degrades Samples.unparsable
                                  (Samples.page "8003" ""))))
             (Exn "Unexpected end of JSON input")).
    reflexivity.
Defined.

(** C7, as the specification has it, fails: after a listing that showed
    [a.txt], a reply that does not parse leaves the row of [a.txt] on the
    page, which is not the empty list; and a reply whose descriptor has no
    [filename] renders a row for "undefined". *)
Lemma loadFiles_malformed_not_empty :
  let env := Samples.garbled_later in
  let w1 := run env [Refresh] (Samples.page "8003" "") in
  let w2 := run env [Refresh] w1 in
  files_reply env w1 = Throw (Exn "Unexpected end of JSON input")
  /\ filesList_innerHTML w2 = file_item_html "http://localhost:8002" "a.txt"
  /\ String.eqb (filesList_innerHTML w2) no_files_html = false
  /\ filesList_innerHTML
       (snd (AgentChat.loadFiles (Samples.replies 200 (VObj [("files", VArr [VObj []])]))
               (Samples.page "8003" "")))
     = file_item_html "http://localhost:8002" "undefined".
Proof. vm_compute. repeat apply conj; reflexivity. Qed.

Example loadFiles_one_file :
  filesList_innerHTML
    (snd (AgentChat.loadFiles
            (Samples.replies 200 (VObj [("files", VArr [descriptor "a.txt"])]))
            (Samples.page "8003" "")))
  = file_item_html "http://localhost:8002" "a.txt".
Proof. vm_compute. reflexivity. Qed.

(** ** The session *)

Lemma sendMessage_unprintable_reply (env : Env) (w : World) (result reply : value)
      (e : exn) :
  JsString.trim (input_value w) <> "" ->
  query_reply env w = Ok result ->
  JsValue.get_prop (engine_message env) result "status" = Ok (VStr "success") ->
  JsValue.get_prop (engine_message env) result "response" = Ok reply ->
  JsValue.dom_string (engine_message env) reply = Throw e ->
  AgentChat.sendMessage env w = (Ok tt, after_throw w e).
Proof.
  intros Htext Hout Hstatus Hreply Hdom. enter_sendMessage Htext Hout.
  destruct (fetch_result _ _ _) as [resp|e']; [|discriminate].
  rewrite Hout, Hstatus. cbn [JsValue.strict_equals String.eqb Ascii.eqb Bool.eqb].
  rewrite Hreply, Hdom. reflexivity.
Qed.

(** The four ways [sendMessage] ends. *)
Lemma sendMessage_cases (env : Env) (w : World) :
  AgentChat.sendMessage env w = (Ok tt, w)
  \/ (exists text,
         AgentChat.sendMessage env w
         = (Ok tt,
            set_loading false "inline" "none"
              (emit (EvTimeout CallLoadFiles 2000)
                 (append_message (assistant_bubble text) (in_flight w)))))
  \/ (exists e, AgentChat.sendMessage env w = (Ok tt, after_throw w e))
  \/ (exists detail,
         AgentChat.sendMessage env w
         = (Ok tt,
            set_loading false "inline" "none"
              (append_message (error_bubble ("Error: " ++ detail)) (in_flight w)))).
Proof.
  destruct (string_dec (JsString.trim (input_value w)) "") as [Hempty | Htext].
  { left. unfold AgentChat.sendMessage. now rewrite Hempty. }
  right.
  destruct (query_reply env w) as [result|e] eqn:Ereply.
  2:{ right. left. exists e. now apply sendMessage_rejected. }
  destruct (JsValue.get_prop (engine_message env) result "status")
    as [status|e] eqn:Estatus.
  2:{ right. left. exists e. now apply (sendMessage_nullish env w result e). }
  destruct (JsValue.strict_equals status (VStr "success")) eqn:Eeq.
  - apply strict_equals_success in Eeq. subst status.
    destruct (get_prop_defined _ _ _ _ "response" Estatus) as [reply Ereply'].
    destruct (JsValue.dom_string (engine_message env) reply) as [text|e] eqn:Edom.
    + left. exists text. now apply (sendMessage_replied env w result reply text).
    + right. left. exists e.
      now apply (sendMessage_unprintable_reply env w result reply e).
  - assert (Hother : status <> VStr "success").
    { intros ->. discriminate. }
    destruct (get_prop_defined _ _ _ _ "error" Estatus) as [error Eerror].
    destruct (JsValue.to_string (engine_message env)
                (JsValue.or_else error (VStr "Unknown error")))
      as [detail|e] eqn:Edetail.
    + right. right. exists detail.
      now apply (sendMessage_refused env w result status error detail).
    + right. left. exists e.
      now apply (sendMessage_refused_unprintable env w result status error e).
Qed.

Lemma requests_in_flight (w : World) :
  requests_of (trace (in_flight w)) = (requests_of (trace w) ++ [query_of w])%list.
Proof. rewrite trace_in_flight. requests_by_computation. Qed.

(** What [sendMessage] leaves alone, and what it sends. *)
Lemma sendMessage_frame (env : Env) (w : World) :
  let w' := snd (AgentChat.sendMessage env w) in
  window_BACKEND_URL w' = window_BACKEND_URL w
  /\ location_port w' = location_port w
  /\ (requests_of (trace w') = requests_of (trace w)
      \/ requests_of (trace w') = (requests_of (trace w) ++ [query_of w])%list).
Proof.
  intro w'. subst w'.
  destruct (sendMessage_cases env w)
    as [-> | [[text ->] | [[e ->] | [detail ->]]]]; cbn [snd].
  - repeat apply conj; try reflexivity. now left.
  - repeat apply conj; try reflexivity. right.
    cbn [trace set_loading emit append_message]. autorewrite with world.
    apply requests_in_flight.
  - repeat apply conj; try reflexivity. right. unfold after_throw.
    cbn [trace set_loading set_status append_message]. autorewrite with world.
    apply requests_in_flight.
  - repeat apply conj; try reflexivity. right.
    cbn [trace set_loading append_message]. autorewrite with world.
    apply requests_in_flight.
Qed.

Lemma loadFiles_frame (env : Env) (w : World) :
  let w' := snd (AgentChat.loadFiles env w) in
  window_BACKEND_URL w' = window_BACKEND_URL w
  /\ location_port w' = location_port w
  /\ requests_of (trace w') = (requests_of (trace w) ++ [files_of w])%list.
Proof.
  intro w'. subst w'.
  destruct (loadFiles_cases env w) as [[html ->] | ->]; cbn [snd];
    repeat apply conj; try reflexivity; unfold listing;
    cbn [trace set_filesList_innerHTML emit]; now autorewrite with world.
Qed.

(** One action sends its requests to the endpoint and leaves it alone. *)
Lemma step_frame (env : Env) (a : action) (w : World) :
  window_BACKEND_URL (step env a w) = window_BACKEND_URL w
  /\ location_port (step env a w) = location_port w
  /\ exists issued,
      requests_of (trace (step env a w)) = (requests_of (trace w) ++ issued)%list
      /\ Forall (call_to (AgentChat.getBackendUrl w)) issued.
Proof.
  destruct a as [text | | | []]; cbn [step].
  - repeat apply conj; try reflexivity. exists []. split; [|constructor].
    cbn [trace set_input_value]. now rewrite app_nil_r.
  - destruct (sendMessage_frame env w) as (Hu & Hp & [Hr | Hr]).
    + repeat apply conj; try assumption. exists []. split; [|constructor].
      now rewrite app_nil_r.
    + repeat apply conj; try assumption. exists [query_of w]. split; [assumption|].
      constructor; [|constructor]. left. eexists. reflexivity.
  - destruct (loadFiles_frame env w) as (Hu & Hp & Hr).
    repeat apply conj; try assumption. exists [files_of w]. split; [assumption|].
    constructor; [|constructor]. now right.
  - destruct (loadFiles_frame env w) as (Hu & Hp & Hr).
    repeat apply conj; try assumption. exists [files_of w]. split; [assumption|].
    constructor; [|constructor]. now right.
Qed.

Lemma run_frame (env : Env) (actions : list action) (w : World) :
  window_BACKEND_URL (run env actions w) = window_BACKEND_URL w
  /\ location_port (run env actions w) = location_port w
  /\ exists issued,
      requests_of (trace (run env actions w)) = (requests_of (trace w) ++ issued)%list
      /\ Forall (call_to (AgentChat.getBackendUrl w)) issued.
Proof.
  revert w. induction actions as [|a rest IH]; intro w.
  - repeat apply conj; try reflexivity. exists []. split; [|constructor].
    cbn [run fold_left]. now rewrite app_nil_r.
  - cbn [run fold_left]. fold (run env rest (step env a w)).
    destruct (step_frame env a w) as (Hu & Hp & first & Hfirst & Hto).
    destruct (IH (step env a w)) as (Hu' & Hp' & later & Hlater & Hto').
    rewrite (endpoint_frame w (step env a w) Hu Hp) in Hto'.
    repeat apply conj; try congruence.
    exists (first ++ later)%list. split.
    + rewrite Hlater, Hfirst. now rewrite app_assoc.
    + apply Forall_app. now split.
Qed.

Lemma map_rows_descriptors (env : Env) (backendUrl : string) (names : list string) :
  AgentChat.map_rows env backendUrl (map descriptor names)
  = Ok (map (file_item_html backendUrl) names).
Proof.
  induction names as [|name rest IH]; [reflexivity|].
  cbn [map AgentChat.map_rows]. rewrite IH. reflexivity.
Qed.

(** The rows of a listing link to the endpoint of the moment. *)
Lemma displayFiles_rows (env : Env) (names : list string) (w : World) :
  names <> [] ->
  AgentChat.displayFiles env (VArr (map descriptor names)) w
  = (Ok tt,
     set_filesList_innerHTML
       (String.concat "" (map (file_item_html (AgentChat.getBackendUrl w)) names)) w).
Proof.
  intro Hnames. unfold AgentChat.displayFiles, bind, lift, modify.
  cbn [JsValue.get_prop String.eqb Ascii.eqb Bool.eqb].
  destruct names as [|name rest]; [contradiction|].
  cbn [map List.length]. rewrite Nat2Z.inj_succ.
  destruct (Z.succ (Z.of_nat (List.length (map descriptor rest)))) eqn:E; [lia| |lia].
  cbn [JsValue.strict_equals Z.eqb AgentChat.files_map].
  change (descriptor name :: map descriptor rest) with (map descriptor (name :: rest)).
  rewrite map_rows_descriptors. reflexivity.
Qed.

(** C5, as the script has it.  After construction nothing writes
    [window.BACKEND_URL] again: over any sequence of edits, submits,
    refreshes and timers, whether the calls succeed or fail, the endpoint
    stays the one the sequence started with; every request issued is the
    [/query] or the [/files] request to that endpoint (no health probe, so
    no rediscovery), and a listing rendered afterwards links to it. *)
Theorem endpoint_reused_for_session (env : Env) (actions : list action) (w : World) :
  let w' := run env actions w in
  window_BACKEND_URL w' = window_BACKEND_URL w
  /\ AgentChat.getBackendUrl w' = AgentChat.getBackendUrl w
  /\ (exists issued,
         requests_of (trace w') = (requests_of (trace w) ++ issued)%list
         /\ Forall (call_to (AgentChat.getBackendUrl w)) issued)
  /\ (forall names,
         names <> [] ->
         filesList_innerHTML
           (snd (AgentChat.displayFiles env (VArr (map descriptor names)) w'))
         = String.concat "" (map (file_item_html (AgentChat.getBackendUrl w)) names)).
Proof.
  intro w'. subst w'.
  destruct (run_frame env actions w) as (Hu & Hp & Hissued).
  pose proof (endpoint_frame w (run env actions w) Hu Hp) as Hsame.
  repeat apply conj; try assumption.
  intros names Hnames. rewrite (displayFiles_rows env names _ Hnames).
  cbn [snd filesList_innerHTML set_filesList_innerHTML]. now rewrite Hsame.
Qed.

Lemma endpoint_reused_for_session_witness :
  let env := Samples.outage in
  let w := snd (AgentChat.constructor env (Samples.page "8003" "")) in
  filesList_innerHTML
    (snd (AgentChat.displayFiles env (VArr (map descriptor ["a.txt"]))
            (run env [TypeInput "hello"; Submit; Refresh] w)))
  = String.concat "" (map (file_item_html (AgentChat.getBackendUrl w)) ["a.txt"]).
Proof.
  apply (proj2 (proj2 (proj2 (endpoint_reused_for_session Samples.outage
                                [TypeInput "hello"; Submit; Refresh]
                                (snd (AgentChat.constructor Samples.outage
                                        (Samples.page "8003" ""))))))
           ["a.txt"]).
  discriminate.
Defined.

(** C5, as the specification has it, fails on its last part: the page is
    constructed while the backend at 8002 answers (status "Connected"),
    the backend then goes away and a query fails.  No health probe follows
    the failure, the override stays unset and the next call goes to 8002
    again -- although a discovery run at that point would have found the
    backend that is up at 8004. *)
Lemma no_rediscovery_after_failure :
  let env := Samples.outage in
  let w1 := snd (AgentChat.constructor env (Samples.page "8003" "")) in
  let w2 := run env [TypeInput "hello"; Submit; Refresh] w1 in
  status_textContent w1 = "🟢 Connected"
  /\ messages w2 = [user_bubble "hello";
                    error_bubble "Connection error: Failed to fetch"]
  /\ requests_of (trace w2)
     = [ GET "http://localhost:8002/files";
         GET "http://localhost:8002/health";
         AgentChat.query_request "http://localhost:8002" "hello";
         GET "http://localhost:8002/files" ]
  /\ window_BACKEND_URL w2 = None
  /\ window_BACKEND_URL (snd (AgentChat.tryAlternativePorts env w2))
     = Some "http://localhost:8004".
Proof. vm_compute. repeat apply conj; reflexivity. Qed.

(** * Further properties of the script *)

(** ** Discovery *)

Lemma tryAlternativePorts_returns (env : Env) (w : World) :
  fst (AgentChat.tryAlternativePorts env w) = Ok tt.
Proof.
  unfold AgentChat.tryAlternativePorts.
  destruct (tryPorts_outcome env (AgentChat.portsToTry w) w)
    as [[Hall _] | (pre & port & post & Hsplit & Hall & Hhit & _)].
  - now rewrite (discovery_none env _ w Hall).
  - rewrite Hsplit. now rewrite (discovery_found env pre post port w Hall Hhit).
Qed.

Lemma portsToTry_frame (w w' : World) :
  location_port w' = location_port w ->
  AgentChat.portsToTry w' = AgentChat.portsToTry w.
Proof. intro Hp. unfold AgentChat.portsToTry. now rewrite Hp. Qed.

Lemma BACKEND_URL_of_port (w : World) (P : Z) :
  0 < P ->
  location_port w = JsNumber.to_string (Num P) ->
  BACKEND_URL w = AgentChat.port_url (Num (P - 1)).
Proof.
  intros HP Hport. unfold BACKEND_URL, getBackendUrl, AgentChat.port_url.
  rewrite Hport, to_string_truthy, parseInt_to_string by assumption.
  reflexivity.
Qed.

Lemma requests_checking (w : World) :
  requests_of (trace (checking w)) = (requests_of (trace w) ++ [primary_request w])%list.
Proof.
  unfold checking, primary_request. cbn [trace emit]. now autorewrite with world.
Qed.

Lemma requests_disconnected (w : World) :
  requests_of (trace (disconnected w))
  = (requests_of (trace w) ++ [primary_request w])%list.
Proof.
  unfold disconnected. cbn [trace set_status emit]. autorewrite with world.
  apply requests_checking.
Qed.

(** X1. [checkBackendStatus] and [tryAlternativePorts] never throw: the
    promise of either always resolves, whatever the host answers -- every
    failure of a probe ends in the status line, none in a rejection. *)
Theorem discovery_never_throws (env : Env) (w : World) :
  fst (AgentChat.checkBackendStatus env w) = Ok tt
  /\ fst (AgentChat.tryAlternativePorts env w) = Ok tt.
Proof.
  split; [|apply tryAlternativePorts_returns].
  destruct (fetch_result env (requests_of (trace w)) (GET (BACKEND_URL w ++ "/health")))
    as [resp|e] eqn:Efetch.
  - destruct (resp_ok resp) eqn:Eok.
    + destruct (resp_json resp) as [data|e] eqn:Ejson.
      * now rewrite (checkBackendStatus_connected env w resp data Efetch Eok Ejson).
      * rewrite (checkBackendStatus_escalates env w e).
        -- apply tryAlternativePorts_returns.
        -- right. now exists resp.
    + now rewrite (checkBackendStatus_backend_error env w resp Efetch Eok).
  - rewrite (checkBackendStatus_escalates env w e); [|now left].
    apply tryAlternativePorts_returns.
Qed.

(** X2. A primary that answers with a status outside 200..299 is not a
    reason to look elsewhere: [checkBackendStatus] shows "Backend Error",
    has issued the one primary probe and no other request, and leaves the
    override and the endpoint as they were. *)
Theorem checkBackendStatus_http_error (env : Env) (w : World) (resp : response) :
  fetch_result env (requests_of (trace w)) (primary_request w) = Ok resp ->
  resp_ok resp = false ->
  let w' := snd (AgentChat.checkBackendStatus env w) in
  status_textContent w' = "🔴 Backend Error"
  /\ status_className w' = "status error"
  /\ requests_of (trace w') = (requests_of (trace w) ++ [primary_request w])%list
  /\ window_BACKEND_URL w' = window_BACKEND_URL w
  /\ AgentChat.getBackendUrl w' = AgentChat.getBackendUrl w.
Proof.
  intros Hfetch Hok w'. subst w'.
  rewrite (checkBackendStatus_backend_error env w resp Hfetch Hok). cbn [snd].
  repeat apply conj; try reflexivity.
  cbn [trace emit set_status]. autorewrite with world. apply requests_checking.
Qed.

Lemma checkBackendStatus_http_error_witness :
  let env := Samples.replies 503 Samples.healthy in
  let w := Samples.page "8003" "" in
  let w' := snd (AgentChat.checkBackendStatus env w) in
  status_textContent w' = "🔴 Backend Error"
  /\ status_className w' = "status error"
  /\ requests_of (trace w') = (requests_of (trace w) ++ [primary_request w])%list
  /\ window_BACKEND_URL w' = window_BACKEND_URL w
  /\ AgentChat.getBackendUrl w' = AgentChat.getBackendUrl w.
Proof.
  apply (checkBackendStatus_http_error (Samples.replies 503 Samples.healthy)
           (Samples.page "8003" "") (Response 503 (Ok Samples.healthy))).
  - reflexivity.
  - reflexivity.
Defined.

(** X3. A primary that answers OK with a body that parses is accepted as
    it is: the status is "Connected" after one request, no candidate is
    probed, the override is not written, and with no override set the
    endpoint of the later calls is [BACKEND_URL]. *)
Theorem checkBackendStatus_accepts_primary (env : Env) (w : World) (resp : response)
        (data : value) :
  fetch_result env (requests_of (trace w)) (primary_request w) = Ok resp ->
  resp_ok resp = true ->
  resp_json resp = Ok data ->
  let w' := snd (AgentChat.checkBackendStatus env w) in
  status_textContent w' = "🟢 Connected"
  /\ status_className w' = "status connected"
  /\ requests_of (trace w') = (requests_of (trace w) ++ [primary_request w])%list
  /\ window_BACKEND_URL w' = window_BACKEND_URL w
  /\ (window_BACKEND_URL w = None -> AgentChat.getBackendUrl w' = BACKEND_URL w).
Proof.
  intros Hfetch Hok Hjson w'. subst w'.
  rewrite (checkBackendStatus_connected env w resp data Hfetch Hok Hjson). cbn [snd].
  split; [reflexivity|]. split; [reflexivity|]. split; [|split; [reflexivity|]].
  - cbn [trace emit set_status]. autorewrite with world. apply requests_checking.
  - intro Hunset. autorewrite with world. unfold checking. autorewrite with world.
    unfold AgentChat.getBackendUrl. now rewrite Hunset.
Qed.

Lemma checkBackendStatus_accepts_primary_witness :
  let env := Samples.replies 200 Samples.healthy in
  let w := Samples.page "8003" "" in
  let w' := snd (AgentChat.checkBackendStatus env w) in
  status_textContent w' = "🟢 Connected"
  /\ status_className w' = "status connected"
  /\ requests_of (trace w') = (requests_of (trace w) ++ [primary_request w])%list
  /\ window_BACKEND_URL w' = window_BACKEND_URL w
  /\ (window_BACKEND_URL w = None -> AgentChat.getBackendUrl w' = BACKEND_URL w).
Proof.
  apply (checkBackendStatus_accepts_primary (Samples.replies 200 Samples.healthy)
           (Samples.page "8003" "") (Response 200 (Ok Samples.healthy)) Samples.healthy).
  - reflexivity.
  - reflexivity.
  - reflexivity.
Defined.

(** X4. On a page served on port P, 0 < P <= 65535, the first candidate of
    [tryAlternativePorts] is the primary itself: its URL is [BACKEND_URL]
    and its probe is the very request [checkBackendStatus] made.  The second
    candidate is port P + 1. *)
Theorem first_candidate_is_primary (w : World) (P : Z) :
  0 < P <= 65535 ->
  location_port w = JsNumber.to_string (Num P) ->
  (exists rest, AgentChat.portsToTry w = Num (P - 1) :: Num (P + 1) :: rest)
  /\ AgentChat.port_url (Num (P - 1)) = BACKEND_URL w
  /\ health_request (Num (P - 1)) = primary_request w.
Proof.
  intros [HP _] Hport.
  pose proof (BACKEND_URL_of_port w P HP Hport) as Hurl.
  split; [|split].
  - unfold AgentChat.portsToTry. rewrite Hport, parseInt_to_string by assumption.
    eexists. reflexivity.
  - now rewrite Hurl.
  - unfold health_request, primary_request. now rewrite Hurl.
Qed.

Lemma first_candidate_is_primary_witness :
  let w := Samples.page "8003" "" in
  (exists rest, AgentChat.portsToTry w = Num (8003 - 1) :: Num (8003 + 1) :: rest)
  /\ AgentChat.port_url (Num (8003 - 1)) = BACKEND_URL w
  /\ health_request (Num (8003 - 1)) = primary_request w.
Proof.
  apply (first_candidate_is_primary (Samples.page "8003" "") 8003).
  - lia.
  - reflexivity.
Defined.

Lemma discovery_found_first (env : Env) (port : number) (post : list number) (w : World) :
  probe_succeeds env (requests_of (trace w)) port = true ->
  (returned <- AgentChat.tryPorts env (port :: post) ;;
   if returned then ret tt
   else AgentChat.updateStatus "🔴 No Backend Found" "error") w
  = (Ok tt, found_at port w).
Proof.
  intro Hhit.
  apply (discovery_found env [] post port w); [reflexivity|].
  cbn [map]. now rewrite app_nil_r.
Qed.

(** X5. The primary check and the candidate check differ: the first also
    parses the body, the second only looks at [response.ok].  So on a page
    served on port P, a backend on port P - 1 that answers OK with a body
    that is not JSON fails the primary check, is probed again as the first
    candidate and is accepted then: the status ends "Connected", the
    override is the primary URL, and exactly two probes, both of that URL,
    were sent. *)
Theorem unparsable_health_body_accepted_on_reprobe (env : Env) (w : World) (P : Z)
        (resp resp' : response) (e : exn) :
  0 < P <= 65535 ->
  location_port w = JsNumber.to_string (Num P) ->
  fetch_result env (requests_of (trace w)) (primary_request w) = Ok resp ->
  resp_ok resp = true ->
  resp_json resp = Throw e ->
  fetch_result env (requests_of (trace w) ++ [primary_request w])%list (primary_request w)
  = Ok resp' ->
  resp_ok resp' = true ->
  let w' := snd (AgentChat.checkBackendStatus env w) in
  status_textContent w' = "🟢 Connected"
  /\ window_BACKEND_URL w' = Some (BACKEND_URL w)
  /\ requests_of (trace w')
     = (requests_of (trace w) ++ [primary_request w; primary_request w])%list.
Proof.
  intros [HP _] Hport Hfetch Hok Hjson Hagain Hok' w'. subst w'.
  pose proof (BACKEND_URL_of_port w P HP Hport) as Hurl.
  assert (Hprobe : health_request (Num (P - 1)) = primary_request w).
  { unfold health_request, primary_request. now rewrite Hurl. }
  rewrite (checkBackendStatus_escalates env w e) by (right; now exists resp).
  fold (disconnected w). unfold AgentChat.tryAlternativePorts.
  rewrite (portsToTry_frame w (disconnected w)) by reflexivity.
  assert (Hports : exists rest, AgentChat.portsToTry w = Num (P - 1) :: rest).
  { unfold AgentChat.portsToTry. rewrite Hport, parseInt_to_string by assumption.
    eexists. reflexivity. }
  destruct Hports as [rest ->].
  rewrite discovery_found_first.
  - cbn [snd].
    destruct (found_world [] (Num (P - 1)) (disconnected w)) as (Hreq & Hover & _ & Hstatus).
    cbn [probed_all fold_left app map] in Hreq, Hover, Hstatus.
    split; [exact Hstatus|]. split; [now rewrite Hover, Hurl|].
    rewrite Hreq, requests_disconnected, app_nil_l. cbn [map].
    rewrite Hprobe, <- app_assoc. reflexivity.
  - unfold probe_succeeds. rewrite requests_disconnected, Hprobe, Hagain. exact Hok'.
Qed.

Lemma unparsable_health_body_accepted_on_reprobe_witness :
  let env := Samples.unparsable in
  let w := Samples.page "8003" "" in
  let w' := snd (AgentChat.checkBackendStatus env w) in
  status_textContent w' = "🟢 Connected"
  /\ window_BACKEND_URL w' = Some (BACKEND_URL w)
  /\ requests_of (trace w')
     = (requests_of (trace w) ++ [primary_request w; primary_request w])%list.
Proof.
  apply (unparsable_health_body_accepted_on_reprobe Samples.unparsable
           (Samples.page "8003" "") 8003
           (Response 200 (Throw (Exn "Unexpected end of JSON input")))
           (Response 200 (Throw (Exn "Unexpected end of JSON input")))
           (Exn "Unexpected end of JSON input")).
  - lia.
  - reflexivity.
  - reflexivity.
  - reflexivity.
  - reflexivity.
  - reflexivity.
  - reflexivity.
Defined.

(** X6. When the primary probe throws and every candidate fails after it,
    [checkBackendStatus] ends on "No Backend Found" (not on the
    "Disconnected" it showed in between), has sent the primary probe and
    then one probe per candidate in the order of the list, and leaves the
    override and the endpoint as they were. *)
Theorem checkBackendStatus_nothing_reachable (env : Env) (w : World) (e : exn) :
  fetch_result env (requests_of (trace w)) (primary_request w) = Throw e ->
  all_fail env (requests_of (trace w) ++ [primary_request w])%list (AgentChat.portsToTry w)
  = true ->
  let w' := snd (AgentChat.checkBackendStatus env w) in
  status_textContent w' = "🔴 No Backend Found"
  /\ status_className w' = "status error"
  /\ requests_of (trace w')
     = (requests_of (trace w)
          ++ primary_request w :: map health_request (AgentChat.portsToTry w))%list
  /\ window_BACKEND_URL w' = window_BACKEND_URL w
  /\ AgentChat.getBackendUrl w' = AgentChat.getBackendUrl w.
Proof.
  intros Hfetch Hall w'. subst w'.
  rewrite (checkBackendStatus_escalates env w e) by now left.
  fold (disconnected w). unfold AgentChat.tryAlternativePorts.
  rewrite (portsToTry_frame w (disconnected w)) by reflexivity.
  revert Hall. generalize (AgentChat.portsToTry w) as ports. intros ports Hall.
  rewrite (discovery_none env ports (disconnected w))
    by now rewrite requests_disconnected.
  cbn [snd].
  destruct (none_found_world ports (disconnected w)) as (H1 & H2 & H3 & _ & H5 & H6).
  split; [exact H1|]. split; [exact H2|]. split; [|split].
  - rewrite H6, requests_disconnected, <- app_assoc. reflexivity.
  - rewrite H3. reflexivity.
  - rewrite H5. unfold disconnected, checking. now autorewrite with world.
Qed.

Lemma checkBackendStatus_nothing_reachable_witness :
  let env := Samples.unreachable in
  let w := Samples.page "8003" "" in
  let w' := snd (AgentChat.checkBackendStatus env w) in
  status_textContent w' = "🔴 No Backend Found"
  /\ status_className w' = "status error"
  /\ requests_of (trace w')
     = (requests_of (trace w)
          ++ primary_request w :: map health_request (AgentChat.portsToTry w))%list
  /\ window_BACKEND_URL w' = window_BACKEND_URL w
  /\ AgentChat.getBackendUrl w' = AgentChat.getBackendUrl w.
Proof.
  apply (checkBackendStatus_nothing_reachable Samples.unreachable
           (Samples.page "8003" "") (Exn "Failed to fetch")).
  - reflexivity.
  - vm_compute. reflexivity.
Defined.

Lemma firstn_split_at (pre post : list number) (port : number) :
  firstn (S (List.length pre)) (pre ++ port :: post) = (pre ++ [port])%list.
Proof.
  induction pre as [|p rest IH]; [reflexivity|].
  rewrite <- app_comm_cons. cbn [List.length]. rewrite firstn_cons. now rewrite IH.
Qed.

Lemma portsToTry_length (w : World) : List.length (AgentChat.portsToTry w) = 10%nat.
Proof. reflexivity. Qed.

(** X7. [tryAlternativePorts] sends health probes and nothing else: the
    requests it adds are the probes of the first k candidates, in the order
    of the list, for some k between 1 and 10 -- it never skips a candidate,
    never probes past the list, and always sends at least one probe. *)
Theorem tryAlternativePorts_probes_a_prefix (env : Env) (w : World) :
  exists k : nat,
    (1 <= k <= 10)%nat
    /\ requests_of (trace (snd (AgentChat.tryAlternativePorts env w)))
       = (requests_of (trace w)
            ++ map health_request (firstn k (AgentChat.portsToTry w)))%list.
Proof.
  unfold AgentChat.tryAlternativePorts.
  pose proof (portsToTry_length w) as Hlen. revert Hlen.
  generalize (AgentChat.portsToTry w) as ports. intros ports Hlen.
  destruct (tryPorts_outcome env ports w)
    as [[Hall _] | (pre & port & post & Hsplit & Hall & Hhit & _)].
  - exists 10%nat. split; [lia|].
    rewrite (discovery_none env ports w Hall). cbn [snd].
    rewrite <- Hlen, firstn_all.
    apply (none_found_world ports w).
  - exists (S (List.length pre)). split.
    + rewrite Hsplit, length_app in Hlen. cbn [List.length] in Hlen. lia.
    + rewrite Hsplit, (discovery_found env pre post port w Hall Hhit). cbn [snd].
      rewrite firstn_split_at. apply (found_world pre port w).
Qed.

(** X8. [tryAlternativePorts] writes the override only for the first
    candidate whose own probe is answered: either [window.BACKEND_URL] is
    what it was, or the list splits at a candidate such that the probes of
    the candidates before it all failed, its probe -- the request made
    right after those, with exactly that history -- got a response with
    [ok] set, and the override is its URL.  It never adopts an endpoint
    whose probe did not answer. *)
Theorem override_only_for_answering_candidate (env : Env) (w : World) :
  let w' := snd (AgentChat.tryAlternativePorts env w) in
  window_BACKEND_URL w' = window_BACKEND_URL w
  \/ exists pre port post resp,
      AgentChat.portsToTry w = (pre ++ port :: post)%list
      /\ all_fail env (requests_of (trace w)) pre = true
      /\ fetch_result env (requests_of (trace w) ++ map health_request pre)%list
           (health_request port) = Ok resp
      /\ resp_ok resp = true
      /\ requests_of (trace w')
         = (requests_of (trace w) ++ map health_request pre ++ [health_request port])%list
      /\ window_BACKEND_URL w' = Some (AgentChat.port_url port).
Proof.
  intro w'. subst w'. unfold AgentChat.tryAlternativePorts.
  generalize (AgentChat.portsToTry w) as ports. intro ports.
  destruct (tryPorts_outcome env ports w)
    as [[Hall _] | (pre & port & post & Hsplit & Hall & Hhit & _)].
  - left. rewrite (discovery_none env ports w Hall). cbn [snd].
    apply (none_found_world ports w).
  - right. subst ports.
    rewrite (discovery_found env pre post port w Hall Hhit). cbn [snd].
    unfold probe_succeeds in Hhit.
    destruct (fetch_result env (requests_of (trace w) ++ map health_request pre)
                (health_request port)) as [resp|e] eqn:Efetch; [|discriminate].
    exists pre, port, post, resp.
    destruct (found_world pre port w) as (Hreq & Hover & _).
    repeat apply conj; try assumption; try reflexivity.
    now rewrite Hreq, map_app.
Qed.

(** ** Sending *)

Lemma timeouts_of_app (a b : list event) :
  timeouts_of (a ++ b) = (timeouts_of a ++ timeouts_of b)%list.
Proof. apply flat_map_app. Qed.

Lemma timeouts_in_flight (w : World) :
  timeouts_of (trace (in_flight w)) = timeouts_of (trace w).
Proof.
  rewrite trace_in_flight, timeouts_of_app. cbn [timeouts_of flat_map app].
  apply app_nil_r.
Qed.

(** The three ways [sendMessage] ends once it has something to send. *)
Lemma sendMessage_sent_cases (env : Env) (w : World) :
  JsString.trim (input_value w) <> "" ->
  (exists text,
      AgentChat.sendMessage env w
      = (Ok tt,
         set_loading false "inline" "none"
           (emit (EvTimeout CallLoadFiles 2000)
              (append_message (assistant_bubble text) (in_flight w)))))
  \/ (exists e, AgentChat.sendMessage env w = (Ok tt, after_throw w e))
  \/ (exists detail,
         AgentChat.sendMessage env w
         = (Ok tt,
            set_loading false "inline" "none"
              (append_message (error_bubble ("Error: " ++ detail)) (in_flight w)))).
Proof.
  intro Htext.
  destruct (query_reply env w) as [result|e] eqn:Ereply.
  2:{ right. left. exists e. now apply sendMessage_rejected. }
  destruct (JsValue.get_prop (engine_message env) result "status")
    as [status|e] eqn:Estatus.
  2:{ right. left. exists e. now apply (sendMessage_nullish env w result e). }
  destruct (JsValue.strict_equals status (VStr "success")) eqn:Eeq.
  - apply strict_equals_success in Eeq. subst status.
    destruct (get_prop_defined _ _ _ _ "response" Estatus) as [reply Ereply'].
    destruct (JsValue.dom_string (engine_message env) reply) as [text|e] eqn:Edom.
    + left. exists text. now apply (sendMessage_replied env w result reply text).
    + right. left. exists e.
      now apply (sendMessage_unprintable_reply env w result reply e).
  - assert (Hother : status <> VStr "success").
    { intros ->. discriminate. }
    destruct (get_prop_defined _ _ _ _ "error" Estatus) as [error Eerror].
    destruct (JsValue.to_string (engine_message env)
                (JsValue.or_else error (VStr "Unknown error")))
      as [detail|e] eqn:Edetail.
    + right. right. exists detail.
      now apply (sendMessage_refused env w result status error detail).
    + right. left. exists e.
      now apply (sendMessage_refused_unprintable env w result status error e).
Qed.

Lemma messages_replied (w : World) (text : string) :
  messages (set_loading false "inline" "none"
              (emit (EvTimeout CallLoadFiles 2000)
                 (append_message (assistant_bubble text) (in_flight w))))
  = (messages w ++ [user_bubble (JsString.trim (input_value w));
                    assistant_bubble text])%list.
Proof.
  cbn [messages set_loading emit append_message].
  rewrite messages_in_flight. now rewrite <- app_assoc.
Qed.

Lemma timeouts_replied (w : World) (text : string) :
  timeouts_of (trace (set_loading false "inline" "none"
                        (emit (EvTimeout CallLoadFiles 2000)
                           (append_message (assistant_bubble text) (in_flight w)))))
  = (timeouts_of (trace w) ++ [(CallLoadFiles, 2000)])%list.
Proof.
  cbn [trace set_loading emit append_message].
  rewrite !timeouts_of_app, timeouts_in_flight. cbn [timeouts_of flat_map app].
  now rewrite app_nil_r.
Qed.

Lemma timeouts_after_throw (w : World) (e : exn) :
  timeouts_of (trace (after_throw w e)) = timeouts_of (trace w).
Proof.
  unfold after_throw. cbn [trace set_loading set_status append_message].
  rewrite timeouts_of_app, timeouts_in_flight. cbn [timeouts_of flat_map].
  apply app_nil_r.
Qed.

Lemma timeouts_refused (w : World) (detail : string) :
  timeouts_of (trace (set_loading false "inline" "none"
                        (append_message (error_bubble detail) (in_flight w))))
  = timeouts_of (trace w).
Proof.
  cbn [trace set_loading append_message].
  rewrite timeouts_of_app, timeouts_in_flight. cbn [timeouts_of flat_map].
  apply app_nil_r.
Qed.

(** X9. Once [sendMessage] has something to send it always hands the
    controls back, whatever the reply: it does not throw, the input box is
    empty, the send button is enabled again, its label is shown and its
    spinner hidden -- the [finally] block runs on every path. *)
Theorem sendMessage_restores_controls (env : Env) (w : World) :
  JsString.trim (input_value w) <> "" ->
  let w' := snd (AgentChat.sendMessage env w) in
  fst (AgentChat.sendMessage env w) = Ok tt
  /\ input_value w' = ""
  /\ sendButton_disabled w' = false
  /\ sendText_display w' = "inline"
  /\ loading_display w' = "none".
Proof.
  intros Htext w'. subst w'.
  destruct (sendMessage_sent_cases env w Htext) as [[text ->] | [[e ->] | [detail ->]]];
    cbn [fst snd]; repeat apply conj; reflexivity.
Qed.

Lemma sendMessage_restores_controls_witness :
  let env := Samples.unreachable in
  let w := Samples.page "8003" "hello" in
  let w' := snd (AgentChat.sendMessage env w) in
  fst (AgentChat.sendMessage env w) = Ok tt
  /\ input_value w' = ""
  /\ sendButton_disabled w' = false
  /\ sendText_display w' = "inline"
  /\ loading_display w' = "none".
Proof.
  apply (sendMessage_restores_controls Samples.unreachable (Samples.page "8003" "hello")).
  discriminate.
Defined.

(** X10. A call of [sendMessage] appends either nothing (and then leaves
    the whole trace alone), or exactly two bubbles: the user's and one
    reply.  The 2000 ms timer that refreshes the file list is set exactly
    when the reply bubble is an assistant one; an error bubble sets no
    timer. *)
Theorem sendMessage_outcomes (env : Env) (w : World) :
  let w' := snd (AgentChat.sendMessage env w) in
  let text := JsString.trim (input_value w) in
  (messages w' = messages w /\ trace w' = trace w)
  \/ (exists reply,
         messages w' = (messages w ++ [user_bubble text; assistant_bubble reply])%list
         /\ timeouts_of (trace w')
            = (timeouts_of (trace w) ++ [(CallLoadFiles, 2000)])%list)
  \/ (exists detail,
         messages w' = (messages w ++ [user_bubble text; error_bubble detail])%list
         /\ timeouts_of (trace w') = timeouts_of (trace w)).
Proof.
  intros w' text. subst w' text.
  destruct (string_dec (JsString.trim (input_value w)) "") as [Hempty | Htext].
  { left. unfold AgentChat.sendMessage. rewrite Hempty. now split. }
  right.
  destruct (sendMessage_sent_cases env w Htext) as [[text ->] | [[e ->] | [detail ->]]];
    cbn [snd].
  - left. exists text. split; [apply messages_replied | apply timeouts_replied].
  - right. eexists. split; [apply messages_after_throw | apply timeouts_after_throw].
  - right. eexists. split; [apply messages_refused | apply timeouts_refused].
Qed.

(** X11. [sendMessage] touches the status line only when its [try] block
    throws: either the status text and class are what they were, or they
    are "Connection Error" with class [status error] and the bubble
    appended is the "Connection error: ..." one. *)
Theorem sendMessage_status (env : Env) (w : World) :
  let w' := snd (AgentChat.sendMessage env w) in
  (status_textContent w' = status_textContent w
   /\ status_className w' = status_className w)
  \/ (status_textContent w' = "🔴 Connection Error"
      /\ status_className w' = "status error"
      /\ exists e,
          messages w'
          = (messages w ++ [user_bubble (JsString.trim (input_value w));
                            error_bubble ("Connection error: " ++ error_message e)])%list).
Proof.
  intro w'. subst w'.
  destruct (sendMessage_cases env w) as [-> | [[text ->] | [[e ->] | [detail ->]]]];
    cbn [snd].
  - left. now split.
  - left. now split.
  - right. split; [reflexivity|]. split; [reflexivity|].
    exists e. apply messages_after_throw.
  - left. now split.
Qed.

(** X12. An exchange that works does not repair the status line: after a
    reply with [status: "success"], and also after a reply with another
    status whose [error] prints, the status text and class are exactly
    what they were before the call -- a "Connection Error" shown by an
    earlier call stays on the page. *)
Theorem sendMessage_keeps_status_on_reply (env : Env) (w : World) (result : value) :
  JsString.trim (input_value w) <> "" ->
  query_reply env w = Ok result ->
  let w' := snd (AgentChat.sendMessage env w) in
  (forall r,
      JsValue.get_prop (engine_message env) result "status" = Ok (VStr "success") ->
      JsValue.get_prop (engine_message env) result "response" = Ok (VStr r) ->
      status_textContent w' = status_textContent w
      /\ status_className w' = status_className w)
  /\ (forall status error detail,
         JsValue.get_prop (engine_message env) result "status" = Ok status ->
         status <> VStr "success" ->
         JsValue.get_prop (engine_message env) result "error" = Ok error ->
         JsValue.to_string (engine_message env)
           (JsValue.or_else error (VStr "Unknown error")) = Ok detail ->
         status_textContent w' = status_textContent w
         /\ status_className w' = status_className w).
Proof.
  intros Htext Hreply w'. subst w'. split.
  - intros r Hstatus Hresponse.
    rewrite (sendMessage_replied env w result (VStr r) r) by (assumption || reflexivity).
    now split.
  - intros status error detail Hstatus Hother Herror Hdetail.
    rewrite (sendMessage_refused env w result status error detail) by assumption.
    now split.
Qed.

Lemma sendMessage_keeps_status_on_reply_witness :
  let env := Samples.replies 200 Samples.success_hi in
  let w := snd (AgentChat.sendMessage Samples.unreachable (Samples.page "8003" "hello")) in
  let w1 := set_input_value "again" w in
  status_textContent w1 = "🔴 Connection Error"
  /\ status_textContent (snd (AgentChat.sendMessage env w1)) = status_textContent w1
  /\ status_className (snd (AgentChat.sendMessage env w1)) = status_className w1.
Proof.
  split; [reflexivity|].
  apply (proj1 (sendMessage_keeps_status_on_reply
                  (Samples.replies 200 Samples.success_hi)
                  (set_input_value "again"
                     (snd (AgentChat.sendMessage Samples.unreachable
                             (Samples.page "8003" "hello"))))
                  Samples.success_hi ltac:(discriminate) eq_refl) "hi").
  - reflexivity.
  - reflexivity.
Defined.

(** X13. A reply that says [status: "success"] but has no [response] (or
    a [null] one) still counts as a success: the assistant bubble is
    attached with an empty text, and the refresh timer is set. *)
Theorem success_without_response (env : Env) (w : World) (result reply : value) :
  JsString.trim (input_value w) <> "" ->
  query_reply env w = Ok result ->
  JsValue.get_prop (engine_message env) result "status" = Ok (VStr "success") ->
  JsValue.get_prop (engine_message env) result "response" = Ok reply ->
  reply = VUndefined \/ reply = VNull ->
  let w' := snd (AgentChat.sendMessage env w) in
  messages w'
  = (messages w ++ [user_bubble (JsString.trim (input_value w)); assistant_bubble ""])%list
  /\ timeouts_of (trace w') = (timeouts_of (trace w) ++ [(CallLoadFiles, 2000)])%list.
Proof.
  intros Htext Hreply Hstatus Hresponse Hmissing w'. subst w'.
  rewrite (sendMessage_replied env w result reply "") by
      (try assumption; destruct Hmissing as [-> | ->]; reflexivity).
  cbn [snd]. split; [apply messages_replied | apply timeouts_replied].
Qed.

Lemma success_without_response_witness :
  let env := Samples.replies 200 (VObj [("status", VStr "success")]) in
  let w := Samples.page "8003" "hello" in
  let w' := snd (AgentChat.sendMessage env w) in
  messages w'
  = (messages w ++ [user_bubble (JsString.trim (input_value w)); assistant_bubble ""])%list
  /\ timeouts_of (trace w') = (timeouts_of (trace w) ++ [(CallLoadFiles, 2000)])%list.
Proof.
  apply (success_without_response
           (Samples.replies 200 (VObj [("status", VStr "success")]))
           (Samples.page "8003" "hello")
           (VObj [("status", VStr "success")]) VUndefined).
  - discriminate.
  - reflexivity.
  - reflexivity.
  - reflexivity.
  - now left.
Defined.

(** X14. A reply that says [status: "success"] with a [response] the page
    cannot print (an object with a [toString] property of its own) is not
    shown as a success: attaching the bubble throws, the [catch] block
    reports it as "Connection error: ...", the status line turns to
    "Connection Error" and no refresh timer is set. *)
Theorem success_with_unprintable_response (env : Env) (w : World)
        (result reply : value) (e : exn) :
  JsString.trim (input_value w) <> "" ->
  query_reply env w = Ok result ->
  JsValue.get_prop (engine_message env) result "status" = Ok (VStr "success") ->
  JsValue.get_prop (engine_message env) result "response" = Ok reply ->
  JsValue.dom_string (engine_message env) reply = Throw e ->
  let w' := snd (AgentChat.sendMessage env w) in
  messages w'
  = (messages w ++ [user_bubble (JsString.trim (input_value w));
                    error_bubble ("Connection error: " ++ error_message e)])%list
  /\ status_textContent w' = "🔴 Connection Error"
  /\ timeouts_of (trace w') = timeouts_of (trace w).
Proof.
  intros Htext Hreply Hstatus Hresponse Hdom w'. subst w'.
  rewrite (sendMessage_unprintable_reply env w result reply e) by assumption.
  cbn [snd]. split; [apply messages_after_throw|].
  split; [reflexivity | apply timeouts_after_throw].
Qed.

Lemma success_with_unprintable_response_witness :
  let body := VObj [("status", VStr "success");
                    ("response", VObj [("toString", VNum (Num 1))])] in
  let env := Samples.replies 200 body in
  let w := Samples.page "8003" "hello" in
  let w' := snd (AgentChat.sendMessage env w) in
  messages w'
  = (messages w ++ [user_bubble (JsString.trim (input_value w));
                    error_bubble ("Connection error: "
                                  ++ error_message
                                       (Exn "Cannot convert object to primitive value"))])%list
  /\ status_textContent w' = "🔴 Connection Error"
  /\ timeouts_of (trace w') = timeouts_of (trace w).
Proof.
  apply (success_with_unprintable_response
           (Samples.replies 200
              (VObj [("status", VStr "success");
                     ("response", VObj [("toString", VNum (Num 1))])]))
           (Samples.page "8003" "hello")
           (VObj [("status", VStr "success");
                  ("response", VObj [("toString", VNum (Num 1))])])
           (VObj [("toString", VNum (Num 1))])
           (Exn "Cannot convert object to primitive value")).
  - discriminate.
  - reflexivity.
  - reflexivity.
  - reflexivity.
  - reflexivity.
Defined.

Lemma trim_end_cons (c d : ascii) (r r' : string) :
  JsString.trim_end r = String d r' ->
  JsString.trim_end (String c r) = String c (String d r').
Proof. intro Hr. cbn [JsString.trim_end]. now rewrite Hr. Qed.

Lemma trim_end_idempotent (s : string) :
  JsString.trim_end (JsString.trim_end s) = JsString.trim_end s.
Proof.
  induction s as [|c r IH]; [reflexivity|].
  destruct (JsString.trim_end r) as [|d r'] eqn:Er.
  - cbn [JsString.trim_end]. rewrite Er.
    destruct (JsString.is_white_space c) eqn:Ec; [reflexivity|].
    cbn [JsString.trim_end]. now rewrite Ec.
  - rewrite (trim_end_cons c d r r' Er). now apply trim_end_cons.
Qed.

Lemma trim_start_head (s : string) :
  JsString.trim_start s = ""
  \/ exists c r, JsString.trim_start s = String c r /\ JsString.is_white_space c = false.
Proof.
  induction s as [|c r IH]; [now left|].
  cbn [JsString.trim_start].
  destruct (JsString.is_white_space c) eqn:Ec; [exact IH|].
  right. now exists c, r.
Qed.

Lemma trim_end_keeps_head (c : ascii) (r : string) :
  JsString.is_white_space c = false ->
  exists r', JsString.trim_end (String c r) = String c r'.
Proof.
  intro Hc. cbn [JsString.trim_end].
  destruct (JsString.trim_end r) as [|d r'].
  - rewrite Hc. now eexists.
  - now eexists.
Qed.

Lemma trim_idempotent (s : string) :
  JsString.trim (JsString.trim s) = JsString.trim s.
Proof.
  unfold JsString.trim.
  destruct (trim_start_head s) as [-> | (c & r & -> & Hc)]; [reflexivity|].
  destruct (trim_end_keeps_head c r Hc) as [r' Hr'].
  rewrite Hr'. cbn [JsString.trim_start]. rewrite Hc.
  rewrite <- Hr'. apply trim_end_idempotent.
Qed.

(** X15. What is posted and echoed is the trimmed input: the body of the
    request is [{prompt: p, max_turns: 20}] and the user bubble shows [p],
    where [p] is the input without its leading and trailing white space
    (trimming [p] again changes nothing), and the request goes to the
    [/query] path of the endpoint with method POST. *)
Theorem sendMessage_posts_trimmed_prompt (env : Env) (w : World) :
  JsString.trim (input_value w) <> "" ->
  let p := JsString.trim (input_value w) in
  let w' := snd (AgentChat.sendMessage env w) in
  JsString.trim p = p
  /\ requests_of (trace w')
     = (requests_of (trace w)
          ++ [Request (AgentChat.getBackendUrl w ++ "/query") "POST"
                [("Content-Type", "application/json")]
                (Some (VObj [("prompt", VStr p); ("max_turns", VNum (Num 20))]))])%list
  /\ exists reply, messages w' = (messages w ++ [user_bubble p; reply])%list.
Proof.
  intros Htext p w'. subst p w'.
  split; [apply trim_idempotent|].
  destruct (sendMessage_frame env w) as (_ & _ & [Hsame | Hsent]).
  - exfalso.
    destruct (sendMessage_sent_cases env w Htext)
      as [[text Hrun] | [[e Hrun] | [detail Hrun]]];
      rewrite Hrun in Hsame; cbn [snd] in Hsame;
      [ cbn [trace set_loading emit append_message] in Hsame
      | unfold after_throw in Hsame;
        cbn [trace set_loading set_status append_message] in Hsame
      | cbn [trace set_loading append_message] in Hsame ];
      autorewrite with world in Hsame;
      rewrite requests_in_flight in Hsame;
      apply (f_equal (@List.length request)) in Hsame;
      rewrite length_app in Hsame; cbn [List.length] in Hsame; lia.
  - split; [exact Hsent|].
    destruct (sendMessage_sent_cases env w Htext)
      as [[text ->] | [[e ->] | [detail ->]]]; cbn [snd]; eexists.
    + apply messages_replied.
    + apply messages_after_throw.
    + apply messages_refused.
Qed.

Lemma sendMessage_posts_trimmed_prompt_witness :
  let env := Samples.replies 200 Samples.success_hi in
  let w := Samples.page "8003" "  hello  " in
  let p := JsString.trim (input_value w) in
  let w' := snd (AgentChat.sendMessage env w) in
  JsString.trim p = p
  /\ requests_of (trace w')
     = (requests_of (trace w)
          ++ [Request (AgentChat.getBackendUrl w ++ "/query") "POST"
                [("Content-Type", "application/json")]
                (Some (VObj [("prompt", VStr p); ("max_turns", VNum (Num 20))]))])%list
  /\ exists reply, messages w' = (messages w ++ [user_bubble p; reply])%list.
Proof.
  apply (sendMessage_posts_trimmed_prompt (Samples.replies 200 Samples.success_hi)
           (Samples.page "8003" "  hello  ")).
  discriminate.
Defined.

Example trimmed_prompt_is_hello :
  JsString.trim (input_value (Samples.page "8003" "  hello  ")) = "hello".
Proof. reflexivity. Qed.

(** ** Listing *)

Lemma map_rows_with_status (s : Z) (env : Env) (backendUrl : string)
      (files : list value) :
  AgentChat.map_rows (with_status s env) backendUrl files
  = AgentChat.map_rows env backendUrl files.
Proof.
  induction files as [|file rest IH]; [reflexivity|].
  cbn [AgentChat.map_rows]. rewrite IH. reflexivity.
Qed.

Lemma displayFiles_with_status (s : Z) (env : Env) (files : value) (w : World) :
  AgentChat.displayFiles (with_status s env) files w = AgentChat.displayFiles env files w.
Proof.
  unfold AgentChat.displayFiles, bind, lift, AgentChat.files_map.
  cbn [with_status engine_message].
  destruct (JsValue.get_prop (engine_message env) files "length") as [len|e];
    [|reflexivity].
  destruct (JsValue.strict_equals len (VNum (Num 0))); [reflexivity|].
  destruct files; try reflexivity.
  now rewrite map_rows_with_status.
Qed.

(** X16. [loadFiles] does not look at the status code either: giving every
    response of the host another code changes nothing, so a 404 or a 500
    whose body is a listing is rendered like a 200. *)
Theorem loadFiles_ignores_http_status (env : Env) (w : World) (s : Z) :
  AgentChat.loadFiles (with_status s env) w = AgentChat.loadFiles env w.
Proof.
  unfold AgentChat.loadFiles. run_method.
  rewrite fetch_result_with_status. cbn [with_status engine_message].
  destruct (fetch_result env _ _) as [resp|e]; [|reflexivity].
  cbn [resp_json].
  destruct (resp_json resp) as [result|e]; [|reflexivity].
  destruct (JsValue.get_prop (engine_message env) result "files") as [files|e];
    [|reflexivity].
  now rewrite displayFiles_with_status.
Qed.

(** X17. [loadFiles] sends exactly one request, the GET of [/files] on the
    endpoint, and changes nothing of the page but the file list: messages,
    input box, send button, status line and override are what they were,
    and nothing is thrown. *)
Theorem loadFiles_footprint (env : Env) (w : World) :
  let w' := snd (AgentChat.loadFiles env w) in
  fst (AgentChat.loadFiles env w) = Ok tt
  /\ requests_of (trace w')
     = (requests_of (trace w) ++ [GET (AgentChat.getBackendUrl w ++ "/files")])%list
  /\ messages w' = messages w
  /\ input_value w' = input_value w
  /\ sendButton_disabled w' = sendButton_disabled w
  /\ status_textContent w' = status_textContent w
  /\ status_className w' = status_className w
  /\ window_BACKEND_URL w' = window_BACKEND_URL w.
Proof.
  intro w'. subst w'.
  destruct (loadFiles_frame env w) as (Hover & _ & Hreq).
  destruct (loadFiles_cases env w) as [[html Hrun] | Hrun];
    rewrite Hrun in *; cbn [fst snd] in *;
    repeat apply conj; try reflexivity; assumption.
Qed.

Lemma map_rows_named (env : Env) (backendUrl : string) (files : list value)
      (names : list string) :
  Forall2 (fun file name =>
             JsValue.get_prop (engine_message env) file "filename" = Ok (VStr name))
          files names ->
  AgentChat.map_rows env backendUrl files = Ok (map (file_item_html backendUrl) names).
Proof.
  induction 1 as [|file name files names Hfile _ IH]; [reflexivity|].
  cbn [AgentChat.map_rows map]. unfold AgentChat.file_row. rewrite Hfile.
  cbn [JsValue.to_string]. now rewrite IH.
Qed.

Lemma displayFiles_nonempty_array (env : Env) (file : value) (files : list value)
      (w : World) :
  AgentChat.displayFiles env (VArr (file :: files)) w
  = match AgentChat.map_rows env (AgentChat.getBackendUrl w) (file :: files) with
    | Ok rows => (Ok tt, set_filesList_innerHTML (String.concat "" rows) w)
    | Throw e => (Throw e, w)
    end.
Proof.
  unfold AgentChat.displayFiles, bind, lift, modify.
  cbn [JsValue.get_prop String.eqb Ascii.eqb Bool.eqb List.length].
  rewrite Nat2Z.inj_succ.
  destruct (Z.succ (Z.of_nat (List.length files))) eqn:E; [lia| |lia].
  cbn [JsValue.strict_equals Z.eqb AgentChat.files_map].
  destruct (AgentChat.map_rows env (AgentChat.getBackendUrl w) (file :: files));
    reflexivity.
Qed.

(** X18. When the reply lists files -- a non-empty array whose entries
    each have a string [filename] -- [loadFiles] replaces the file list by
    one row per file, in the order of the reply, each row built from the
    endpoint of the moment and the name ([href] is
    [endpoint/files/filename]). *)
Theorem loadFiles_lists_files (env : Env) (w : World) (result : value)
        (files : list value) (names : list string) :
  files_reply env w = Ok result ->
  JsValue.get_prop (engine_message env) result "files" = Ok (VArr files) ->
  files <> [] ->
  Forall2 (fun file name =>
             JsValue.get_prop (engine_message env) file "filename" = Ok (VStr name))
          files names ->
  filesList_innerHTML (snd (AgentChat.loadFiles env w))
  = String.concat "" (map (file_item_html (AgentChat.getBackendUrl w)) names).
Proof.
  intros Hreply Hfiles Hnonempty Hnames.
  rewrite (loadFiles_displays env w result (VArr files) Hreply Hfiles).
  change (JsValue.or_else (VArr files) (VArr [])) with (VArr files).
  destruct files as [|file rest]; [contradiction|].
  rewrite displayFiles_nonempty_array, (map_rows_named env _ _ names Hnames).
  cbn [snd filesList_innerHTML set_filesList_innerHTML].
  unfold listing. now autorewrite with world.
Qed.

Lemma loadFiles_lists_files_witness :
  let body := VObj [("files", VArr [descriptor "a.txt"; descriptor "b.csv"])] in
  let w := Samples.page "8003" "" in
  filesList_innerHTML (snd (AgentChat.loadFiles (Samples.replies 200 body) w))
  = String.concat ""
      (map (file_item_html (AgentChat.getBackendUrl w)) ["a.txt"; "b.csv"]).
Proof.
  apply (loadFiles_lists_files
           (Samples.replies 200
              (VObj [("files", VArr [descriptor "a.txt"; descriptor "b.csv"])]))
           (Samples.page "8003" "")
           (VObj [("files", VArr [descriptor "a.txt"; descriptor "b.csv"])])
           [descriptor "a.txt"; descriptor "b.csv"] ["a.txt"; "b.csv"]).
  - reflexivity.
  - reflexivity.
  - discriminate.
  - repeat constructor.
Defined.

Lemma map_rows_with_null (env : Env) (backendUrl : string) (files : list value) :
  In VNull files ->
  exists e, AgentChat.map_rows env backendUrl files = Throw e.
Proof.
  induction files as [|file rest IH]; [contradiction|].
  intros [-> | Hin].
  - eexists. reflexivity.
  - cbn [AgentChat.map_rows].
    destruct (AgentChat.file_row env backendUrl file) as [row|e]; [|now exists e].
    destruct (IH Hin) as [e ->]. now exists e.
Qed.

(** X19. The listing is all or nothing: one [null] entry anywhere in the
    array makes [displayFiles] throw before it writes anything, so
    [loadFiles] logs the error, throws nothing, and the file list keeps
    what it showed -- the valid entries of that reply are not rendered. *)
Theorem loadFiles_drops_listing_with_null (env : Env) (w : World) (result : value)
        (files : list value) :
  files_reply env w = Ok result ->
  JsValue.get_prop (engine_message env) result "files" = Ok (VArr files) ->
  In VNull files ->
  (exists e, AgentChat.displayFiles env (VArr files) (listing w) = (Throw e, listing w))
  /\ AgentChat.loadFiles env w
     = (Ok tt, emit (EvConsole "error" "Error loading files:") (listing w))
  /\ filesList_innerHTML (snd (AgentChat.loadFiles env w)) = filesList_innerHTML w.
Proof.
  intros Hreply Hfiles Hnull.
  rewrite (loadFiles_displays env w result (VArr files) Hreply Hfiles).
  change (JsValue.or_else (VArr files) (VArr [])) with (VArr files).
  destruct files as [|file rest]; [contradiction|].
  rewrite displayFiles_nonempty_array.
  destruct (map_rows_with_null env (AgentChat.getBackendUrl (listing w)) (file :: rest) Hnull)
    as [e ->].
  split; [now exists e|]. split; reflexivity.
Qed.

Lemma loadFiles_drops_listing_with_null_witness :
  let body := VObj [("files", VArr [descriptor "a.txt"; VNull])] in
  let env := Samples.replies 200 body in
  let w := Samples.page "8003" "" in
  (exists e, AgentChat.displayFiles env (VArr [descriptor "a.txt"; VNull]) (listing w)
             = (Throw e, listing w))
  /\ AgentChat.loadFiles env w
     = (Ok tt, emit (EvConsole "error" "Error loading files:") (listing w))
  /\ filesList_innerHTML (snd (AgentChat.loadFiles env w)) = filesList_innerHTML w.
Proof.
  apply (loadFiles_drops_listing_with_null
           (Samples.replies 200 (VObj [("files", VArr [descriptor "a.txt"; VNull])]))
           (Samples.page "8003" "")
           (VObj [("files", VArr [descriptor "a.txt"; VNull])])
           [descriptor "a.txt"; VNull]).
  - reflexivity.
  - reflexivity.
  - right. now left.
Defined.

(** ** The session *)

(** X20. Discovery decides where the rest of the session talks: once
    [tryAlternativePorts] has found a candidate, every request of every
    later edit, submit, refresh and timer goes to the [/query] or [/files]
    path of that candidate's URL, whatever the host answers then. *)
Theorem calls_follow_discovery (env : Env) (w : World) (pre post : list number)
        (port : number) :
  AgentChat.portsToTry w = (pre ++ port :: post)%list ->
  all_fail env (requests_of (trace w)) pre = true ->
  probe_succeeds env (requests_of (trace w) ++ map health_request pre)%list port = true ->
  forall (env' : Env) (actions : list action),
    let w1 := snd (AgentChat.tryAlternativePorts env w) in
    let w2 := run env' actions w1 in
    AgentChat.getBackendUrl w2 = AgentChat.port_url port
    /\ exists issued,
        requests_of (trace w2) = (requests_of (trace w1) ++ issued)%list
        /\ Forall (call_to (AgentChat.port_url port)) issued.
Proof.
  intros Hsplit Hall Hhit env' actions w1 w2. subst w1 w2.
  unfold AgentChat.tryAlternativePorts. rewrite Hsplit.
  rewrite (discovery_found env pre post port w Hall Hhit). cbn [snd].
  destruct (found_world pre port w) as (_ & _ & Hend & _).
  destruct (run_frame env' actions (found_at port (probed_all pre w)))
    as (Hu & Hp & issued & Hissued & Hto).
  split.
  - rewrite (endpoint_frame _ _ Hu Hp). exact Hend.
  - exists issued. split; [exact Hissued|]. now rewrite Hend in Hto.
Qed.

Lemma calls_follow_discovery_witness :
  let env := Samples.only_at "http://localhost:8004" in
  let w := Samples.page "8003" "" in
  let w1 := snd (AgentChat.tryAlternativePorts env w) in
  let w2 := run Samples.unreachable [TypeInput "hello"; Submit; Refresh] w1 in
  AgentChat.getBackendUrl w2 = AgentChat.port_url (Num 8004)
  /\ exists issued,
      requests_of (trace w2) = (requests_of (trace w1) ++ issued)%list
      /\ Forall (call_to (AgentChat.port_url (Num 8004))) issued.
Proof.
  apply (calls_follow_discovery (Samples.only_at "http://localhost:8004")
           (Samples.page "8003" "") [Num 8002]
           [Num 8002; Num 8002; Num 8003; Num 8004; Num 8005; Num 8006; Num 8007;
            Num 8008]
           (Num 8004) eq_refl eq_refl eq_refl
           Samples.unreachable [TypeInput "hello"; Submit; Refresh]).
Defined.

Ltac all_bubbles :=
  repeat (apply Forall_cons;
          [ unfold is_bubble;
            first [ left; reflexivity
                  | right; left; reflexivity
                  | right; right; reflexivity ] | ]);
  apply Forall_nil.

Lemma sendMessage_appends (env : Env) (w : World) :
  exists added,
    messages (snd (AgentChat.sendMessage env w)) = (messages w ++ added)%list
    /\ Forall is_bubble added.
Proof.
  destruct (sendMessage_cases env w) as [-> | [[text ->] | [[e ->] | [detail ->]]]];
    cbn [snd].
  - exists []. split; [now rewrite app_nil_r | constructor].
  - eexists. split; [apply messages_replied|].
    all_bubbles.
  - eexists. split; [apply messages_after_throw|].
    all_bubbles.
  - eexists. split; [apply messages_refused|].
    all_bubbles.
Qed.

Lemma loadFiles_keeps_messages (env : Env) (w : World) :
  messages (snd (AgentChat.loadFiles env w)) = messages w.
Proof.
  destruct (loadFiles_cases env w) as [[html ->] | ->]; reflexivity.
Qed.

Lemma step_appends (env : Env) (a : action) (w : World) :
  exists added,
    messages (step env a w) = (messages w ++ added)%list /\ Forall is_bubble added.
Proof.
  destruct a as [text | | | []]; cbn [step].
  - exists []. split; [now rewrite app_nil_r | constructor].
  - apply sendMessage_appends.
  - exists []. split; [|constructor].
    unfold loadFiles. now rewrite loadFiles_keeps_messages, app_nil_r.
  - exists []. split; [|constructor].
    now rewrite loadFiles_keeps_messages, app_nil_r.
Qed.

(** X21. The conversation is append-only: over any sequence of edits,
    submits, refreshes and timers, the messages on the page at the start
    are still there, in place, at the end, and what was added after them
    are user, assistant and error bubbles only.  Nothing is ever removed,
    reordered or rewritten. *)
Theorem messages_append_only (env : Env) (actions : list action) (w : World) :
  exists added,
    messages (run env actions w) = (messages w ++ added)%list
    /\ Forall is_bubble added.
Proof.
  revert w. induction actions as [|a rest IH]; intro w.
  - exists []. split; [cbn; now rewrite app_nil_r | constructor].
  - cbn [run fold_left]. fold (run env rest (step env a w)).
    destruct (step_appends env a w) as (first & Hfirst & Hb).
    destruct (IH (step env a w)) as (later & Hlater & Hb').
    exists (first ++ later)%list. split.
    + now rewrite Hlater, Hfirst, app_assoc.
    + apply Forall_app. now split.
Qed.

Lemma probes_of_candidates (ports tried : list number) :
  incl tried ports ->
  Forall (fun r => exists port, In port ports /\ r = health_request port)
         (map health_request tried).
Proof.
  intro Hincl. apply Forall_forall. intros r Hr.
  apply in_map_iff in Hr as (port & <- & Hin).
  exists port. split; [now apply Hincl | reflexivity].
Qed.

(** X23. [checkBackendStatus] sends health probes only, and the first one
    always goes to the constant [BACKEND_URL] -- it does not read
    [window.BACKEND_URL], so an override set earlier is not what gets
    checked.  Whatever follows are probes of candidates of the list. *)
Theorem checkBackendStatus_sends_health_probes (env : Env) (w : World) :
  let w' := snd (AgentChat.checkBackendStatus env w) in
  (forall u, primary_request (set_window_BACKEND_URL u w) = primary_request w)
  /\ exists rest,
      requests_of (trace w')
      = (requests_of (trace w) ++ GET (BACKEND_URL w ++ "/health") :: rest)%list
      /\ Forall (fun r => exists port,
                     In port (AgentChat.portsToTry w) /\ r = health_request port)
                rest.
Proof.
  intro w'. subst w'. split; [reflexivity|].
  assert (Hdiscovery :
            exists rest,
              requests_of (trace (snd (AgentChat.tryAlternativePorts env (disconnected w))))
              = (requests_of (trace w) ++ primary_request w :: rest)%list
              /\ Forall (fun r => exists port,
                             In port (AgentChat.portsToTry w) /\ r = health_request port)
                        rest).
  { unfold AgentChat.tryAlternativePorts.
    rewrite (portsToTry_frame w (disconnected w)) by reflexivity.
    generalize (AgentChat.portsToTry w) as ports. intro ports.
    destruct (tryPorts_outcome env ports (disconnected w))
      as [[Hall _] | (pre & port & post & Hsplit & Hall & Hhit & _)].
    - rewrite (discovery_none env ports (disconnected w) Hall). cbn [snd].
      exists (map health_request ports). split.
      + destruct (none_found_world ports (disconnected w)) as (_ & _ & _ & _ & _ & Hreq).
        rewrite Hreq, requests_disconnected, <- app_assoc. reflexivity.
      + apply probes_of_candidates, incl_refl.
    - rewrite Hsplit, (discovery_found env pre post port (disconnected w) Hall Hhit).
      cbn [snd]. exists (map health_request (pre ++ [port])). split.
      + destruct (found_world pre port (disconnected w)) as (Hreq & _).
        rewrite Hreq, requests_disconnected, <- app_assoc. reflexivity.
      + apply probes_of_candidates. intros q Hq.
        apply in_app_or in Hq as [Hq | [<- | []]].
        * apply in_or_app. now left.
        * apply in_elt. }
  destruct (fetch_result env (requests_of (trace w)) (GET (BACKEND_URL w ++ "/health")))
    as [resp|e] eqn:Efetch.
  - destruct (resp_ok resp) eqn:Eok.
    + destruct (resp_json resp) as [data|e] eqn:Ejson.
      * rewrite (checkBackendStatus_connected env w resp data Efetch Eok Ejson).
        exists []. split; [|constructor]. cbn [snd trace emit set_status].
        autorewrite with world. apply requests_checking.
      * rewrite (checkBackendStatus_escalates env w e) by (right; now exists resp).
        exact Hdiscovery.
    + rewrite (checkBackendStatus_backend_error env w resp Efetch Eok).
      exists []. split; [|constructor]. cbn [snd trace emit set_status].
      autorewrite with world. apply requests_checking.
  - rewrite (checkBackendStatus_escalates env w e) by now left.
    exact Hdiscovery.
Qed.
